(** * jahr5.py: the aWATTar price dashboard, filter / aggregation / statistics

    A shallow embedding of [src/jahr5.py].  The script is a Streamlit page; the
    widgets and the Plotly figures are an external presentation layer, and what
    is embedded here is the data path of the script:

    - [load_data] (lines 20-27),
    - the date mask and the [resample] branches (lines 73-86),
    - the three statistics (lines 92-94),
    - the pattern tables of the second tab (lines 165-171),
    - the bounds of the date widget (lines 40-41) and the x values of the
      tariff lines (lines 123-147).

    Conventions of the embedding.

    - A pandas timestamp is the integer number of milliseconds since the epoch
      ([pd.to_datetime(..., unit="ms")]), a [Z].
    - A [datetime.date] is a record of year, month and day of the proleptic
      Gregorian calendar, compared lexicographically as CPython does.
    - A float64 cell is [option Q]: [None] is NaN, [Some q] a finite value.
      Arithmetic is exact and every result is reduced with [Qred]; binary
      rounding is not modelled.
    - pandas operations ([resample], [groupby], [reindex], [mean], [min],
      [max], boolean indexing) are given as functions of their own, named after
      the pandas method, with the behaviour of pandas 2.x. *)

From Stdlib Require Import ZArith QArith List String Bool Lia Sorted.
Import ListNotations.

Local Open Scope Z_scope.

(** ** Calendar arithmetic behind [.dt.date], [.dt.hour], [.dt.day_name()]
       and the month-end offset *)

Module Calendar.

Definition MS_PER_HOUR : Z := 3600000.
Definition MS_PER_DAY : Z := 86400000.
Definition DAYS_PER_ERA : Z := 146097.
Definition MONTHS_PER_ERA : Z := 4800.

(** [datetime.date]. *)
Record date : Set := mkDate { year : Z; month : Z; day : Z }.

(** Number of whole days since 1970-01-01 of a timestamp (floor). *)
Definition days_of_ms (t : Z) : Z := t / MS_PER_DAY.

(** Civil date of a day number (days since 1970-01-01). *)
Definition civil_from_days (z : Z) : date :=
  let z := z + 719468 in
  let era := z / DAYS_PER_ERA in
  let doe := z - era * DAYS_PER_ERA in
  let yoe := (doe - doe / 1460 + doe / 36524 - doe / 146096) / 365 in
  let doy := doe - (365 * yoe + yoe / 4 - yoe / 100) in
  let mp := (5 * doy + 2) / 153 in
  let d := doy - (153 * mp + 2) / 5 + 1 in
  let m := if mp <? 10 then mp + 3 else mp - 9 in
  let y := yoe + era * 400 in
  mkDate (if m <=? 2 then y + 1 else y) m d.

(** Day number of a civil date. *)
Definition days_from_civil (y m d : Z) : Z :=
  let y := if m <=? 2 then y - 1 else y in
  let era := y / 400 in
  let yoe := y - era * 400 in
  let doy := (153 * (if 2 <? m then m - 3 else m + 9) + 2) / 5 + d - 1 in
  let doe := yoe * 365 + yoe / 4 - yoe / 100 + doy in
  era * DAYS_PER_ERA + doe - 719468.

(** [Series.dt.date]: the calendar date of a timestamp, no timezone shift. *)
Definition dt_date (t : Z) : date := civil_from_days (days_of_ms t).

(** [Series.dt.hour]. *)
Definition dt_hour (t : Z) : Z := (t mod MS_PER_DAY) / MS_PER_HOUR.

Definition weekday_names : list string :=
  ["Monday"; "Tuesday"; "Wednesday"; "Thursday"; "Friday"; "Saturday";
   "Sunday"]%string.

(** [Series.dt.day_name()]; 1970-01-01 was a Thursday. *)
Definition dt_day_name (t : Z) : string :=
  nth (Z.to_nat ((days_of_ms t + 3) mod 7)) weekday_names ""%string.

(** Comparison of [datetime.date] values: lexicographic on
    (year, month, day). *)
Definition date_leb (a b : date) : bool :=
  (year a <? year b)
  || ((year a =? year b)
      && ((month a <? month b)
          || ((month a =? month b) && (day a <=? day b)))).

(** Months are counted from year 0: month index [12 * y + (m - 1)]. *)
Definition month_index (d : date) : Z := 12 * year d + (month d - 1).

(** Day number of the first day of the month with a given index. *)
Definition month_first_day (mi : Z) : Z :=
  days_from_civil (mi / 12) (mi mod 12 + 1) 1.

(** Day number of the last day of the month with a given index: the day
    before the first day of the next month. *)
Definition month_last_day (mi : Z) : Z := month_first_day (mi + 1) - 1.

End Calendar.

Import Calendar.

(** ** float64 cells and the reductions of a [Series] *)

(** A float64 cell: [None] is NaN. *)
Definition float : Set := option Q.
Definition NaN : float := None.

(** [Series / c] for a finite constant [c]: NaN stays NaN. *)
Definition truediv (x : float) (c : Q) : float :=
  match x with
  | Some q => Some (Qred (q / c))
  | None => NaN
  end.

(** The finite cells of a column, in order ([skipna=True], the default of
    [mean], [min] and [max]). *)
Fixpoint dropna (s : list float) : list Q :=
  match s with
  | [] => []
  | Some q :: s' => q :: dropna s'
  | None :: s' => dropna s'
  end.

Definition Qsum (l : list Q) : Q := fold_left Qplus l (0 # 1)%Q.

Definition Qmin2 (a b : Q) : Q := if Qle_bool a b then a else b.
Definition Qmax2 (a b : Q) : Q := if Qle_bool a b then b else a.

(** [Series.mean()]: the mean of the finite cells, NaN when there is none. *)
Definition Series_mean (s : list float) : float :=
  match dropna s with
  | [] => NaN
  | q :: l =>
      Some (Qred (Qsum (q :: l) / inject_Z (Z.of_nat (List.length (q :: l)))))
  end.

(** [Series.min()] and [Series.max()]: over the finite cells, NaN when there
    is none. *)
Definition Series_min (s : list float) : float :=
  match dropna s with
  | [] => NaN
  | q :: l => Some (fold_left Qmin2 l q)
  end.

Definition Series_max (s : list float) : float :=
  match dropna s with
  | [] => NaN
  | q :: l => Some (fold_left Qmax2 l q)
  end.

(** ** Data frames *)

(** One element of the ["data"] array of the input file. *)
Record RawRecord : Set := mkRaw {
  raw_start_timestamp : Z;
  raw_end_timestamp : Z;
  raw_marketprice : float
}.

(** One row of [df] over the four columns [load_data] builds. *)
Record Row : Set := mkRow {
  start_timestamp : Z;
  end_timestamp : Z;
  marketprice : float;
  price_ct_kwh : float
}.

(** [df]: the rows over the loaded columns, and the two columns ["hour"] and
    ["weekday"], which exist only once they have been assigned ([None]: the
    frame has no such column). *)
Record DataFrame : Set := mkDF {
  rows : list Row;
  hour : option (list Z);
  weekday : option (list string)
}.

(** Boolean indexing of a column by a mask. *)
Fixpoint select {A : Type} (mask : list bool) (l : list A) : list A :=
  match mask, l with
  | b :: mask', x :: l' => if b then x :: select mask' l' else select mask' l'
  | _, _ => []
  end.

(** [df[mask].copy()]: a new frame with the rows where the mask holds, over
    every column of [df]. *)
Definition getitem_mask (df : DataFrame) (mask : list bool) : DataFrame :=
  mkDF (select mask (rows df))
       (option_map (select mask) (hour df))
       (option_map (select mask) (weekday df)).

(** [df["hour"] = v] and [df["weekday"] = v]: column assignment on [df]
    itself. *)
Definition setitem_hour (df : DataFrame) (v : list Z) : DataFrame :=
  mkDF (rows df) (Some v) (weekday df).

Definition setitem_weekday (df : DataFrame) (v : list string) : DataFrame :=
  mkDF (rows df) (hour df) (Some v).

(** ** [resample(rule, on="start_timestamp")["price_ct_kwh"].mean().reset_index()] *)

(** The two rules of the script: ["D"] (calendar day, bin closed and labelled
    on the left) and ["M"] (month end, bin closed and labelled on the
    right). *)
Inductive Rule : Set := D | M.

(** The bin of a timestamp: its day number under ["D"], its month index under
    ["M"]. *)
Definition period_of (rule : Rule) (t : Z) : Z :=
  match rule with
  | D => days_of_ms t
  | M => month_index (dt_date t)
  end.

(** The label of a bin: midnight of the day under ["D"], midnight of the last
    day of the month under ["M"]. *)
Definition label_of (rule : Rule) (p : Z) : Z :=
  match rule with
  | D => p * MS_PER_DAY
  | M => month_last_day p * MS_PER_DAY
  end.

(** The integers [lo, lo + 1, ..., hi]. *)
Definition Zrange (lo hi : Z) : list Z :=
  map (fun i => lo + Z.of_nat i) (seq 0 (Z.to_nat (hi - lo + 1))).

(** A row of the resampled frame: columns [start_timestamp] (the bin label)
    and [price_ct_kwh] (the mean of the bin). *)
Record AggRow : Set := mkAgg {
  agg_start_timestamp : Z;
  agg_price_ct_kwh : float
}.

(** The rows of a frame that fall in bin [b]. *)
Definition bin_rows (rule : Rule) (b : Z) (rs : list Row) : list Row :=
  filter (fun r => period_of rule (start_timestamp r) =? b) rs.

(** pandas bins the time axis from the bin of the earliest row to the bin of
    the latest row and emits one output row per bin of that span, a bin
    without rows included: its mean is NaN.  An empty frame resamples to an
    empty frame. *)
Definition resample_mean (rule : Rule) (rs : list Row) : list AggRow :=
  match map (fun r => period_of rule (start_timestamp r)) rs with
  | [] => []
  | p :: ps =>
      let lo := fold_left Z.min ps p in
      let hi := fold_left Z.max ps p in
      map (fun b =>
             mkAgg (label_of rule b)
                   (Series_mean (map price_ct_kwh (bin_rows rule b rs))))
          (Zrange lo hi)
  end.

(** ** [groupby(key)["price_ct_kwh"].mean()] and [reindex] *)

Section GroupBy.

Context {K : Type} (eqb leb : K -> K -> bool).

Fixpoint insert_key (k : K) (l : list K) : list K :=
  match l with
  | [] => [k]
  | x :: l' =>
      if eqb k x then l
      else if leb k x then k :: l
      else x :: insert_key k l'
  end.

(** The distinct keys in ascending order ([sort=True]). *)
Definition sorted_unique (keys : list K) : list K :=
  fold_left (fun acc k => insert_key k acc) keys [].

(** One entry per distinct key, in key order, with the mean of the values
    of that key. *)
Definition groupby_mean (keys : list K) (vals : list float)
  : list (K * float) :=
  map (fun k => (k, Series_mean (select (map (eqb k) keys) vals)))
      (sorted_unique keys).

(** [Series.reindex(labels)]: one entry per label, in the order of
    [labels]; a label that is not in the index gets NaN. *)
Definition reindex (s : list (K * float)) (labels : list K)
  : list (K * float) :=
  map (fun l =>
         (l, match find (fun kv => eqb l (fst kv)) s with
             | Some kv => snd kv
             | None => NaN
             end))
      labels.

End GroupBy.

(** ** The script *)

(** [load_data] after [json.load(f)["data"]]: the three columns of the file,
    the timestamps converted, and the derived column [price_ct_kwh].  An empty
    ["data"] array gives a frame without columns, on which
    [df["start_timestamp"]] raises [KeyError]: [None]. *)
Definition load_data (data : list RawRecord) : option DataFrame :=
  match data with
  | [] => None
  | _ =>
      Some (mkDF (map (fun d =>
                         mkRow (raw_start_timestamp d) (raw_end_timestamp d)
                               (raw_marketprice d)
                               (truediv (raw_marketprice d) (10 # 1)%Q))
                      data)
                 None None)
  end.

(** The value of the radio button. *)
Inductive AggMode : Set := Stuendlich | Taeglich | Monatlich.

(** [filtered_df]: either a frame of rows (after the mask, and in the hourly
    view until the end) or a resampled frame. *)
Inductive Frame : Set :=
| Unaggregated (d : DataFrame)
| Aggregated (s : list AggRow).

(** [filtered_df["price_ct_kwh"]] and [filtered_df["start_timestamp"]]. *)
Definition price_column (f : Frame) : list float :=
  match f with
  | Unaggregated d => map price_ct_kwh (rows d)
  | Aggregated s => map agg_price_ct_kwh s
  end.

Definition time_column (f : Frame) : list Z :=
  match f with
  | Unaggregated d => map start_timestamp (rows d)
  | Aggregated s => map agg_start_timestamp s
  end.

(** Lines 74-77: the date mask,
    [(date >= start_date) & (date <= end_date)] row by row. *)
Definition date_in_range (start_date end_date : date) (r : Row) : bool :=
  date_leb start_date (dt_date (start_timestamp r))
  && date_leb (dt_date (start_timestamp r)) end_date.

Definition date_mask (df : DataFrame) (start_date end_date : date)
  : list bool :=
  map (date_in_range start_date end_date) (rows df).

Definition filter_step (df : DataFrame) (start_date end_date : date)
  : DataFrame :=
  getitem_mask df (date_mask df start_date end_date).

(** Lines 79-86: the aggregation branches. *)
Definition aggregate_step (agg_mode : AggMode) (filtered_df : DataFrame)
  : Frame :=
  match agg_mode with
  | Taeglich => Aggregated (resample_mean D (rows filtered_df))
  | Monatlich => Aggregated (resample_mean M (rows filtered_df))
  | Stuendlich => Unaggregated filtered_df
  end.

Definition filter_and_aggregate (df : DataFrame) (start_date end_date : date)
    (agg_mode : AggMode) : Frame :=
  aggregate_step agg_mode (filter_step df start_date end_date).

(** Lines 92-94: the statistics of the sidebar. *)
Record Stats : Set := mkStats {
  avg_price : float;
  min_price : float;
  max_price : float
}.

Definition summarize (filtered_df : Frame) : Stats :=
  mkStats (Series_mean (price_column filtered_df))
          (Series_min (price_column filtered_df))
          (Series_max (price_column filtered_df)).

(** Lines 165-171: the second tab.  The two assignments write to [df]; the
    group-bys read the columns back from it ([None]: [KeyError]).  The result
    is the frame [df] as the tab leaves it, and the two tables. *)
Definition HourTable : Set := list (Z * float).
Definition DayTable : Set := list (string * float).

Definition pattern_step (df : DataFrame)
  : DataFrame * option HourTable * option DayTable :=
  let df := setitem_hour df (map (fun r => dt_hour (start_timestamp r)) (rows df)) in
  let df :=
    setitem_weekday df (map (fun r => dt_day_name (start_timestamp r)) (rows df)) in
  let avg_by_hour :=
    option_map (fun h => groupby_mean Z.eqb Z.leb h (map price_ct_kwh (rows df)))
               (hour df) in
  let avg_by_day :=
    option_map
      (fun w =>
         reindex String.eqb
           (groupby_mean String.eqb String.leb w (map price_ct_kwh (rows df)))
           ["Monday"; "Tuesday"; "Wednesday"; "Thursday"; "Friday";
            "Saturday"; "Sunday"]%string)
      (weekday df) in
  (df, avg_by_hour, avg_by_day).

(** One run of the script on a loaded frame: the globals it leaves. *)
Record Run : Set := mkRun {
  run_df : DataFrame;
  run_filtered_df : Frame;
  run_stats : Stats;
  avg_by_hour : option HourTable;
  avg_by_day : option DayTable
}.

Definition script (df : DataFrame) (date_range : date * date)
    (agg_mode : AggMode) : Run :=
  let '(start_date, end_date) := date_range in
  let filtered_df := filter_and_aggregate df start_date end_date agg_mode in
  let stats := summarize filtered_df in
  let '(df, by_hour, by_day) := pattern_step df in
  mkRun df filtered_df stats by_hour by_day.

(** The script from the parsed file on.  [min_date] and [max_date] (lines
    40-41) only bound the date widget and are not part of the data path. *)
Definition main (data : list RawRecord) (date_range : date * date)
    (agg_mode : AggMode) : option Run :=
  match load_data data with
  | Some df => Some (script df date_range agg_mode)
  | None => None
  end.

(** ** Scenario data *)

(** The two records of the scenarios: 2024-01-01T00:00Z at 400 EUR/MWh and
    2024-01-01T01:00Z at 200 EUR/MWh. *)
Definition two_records : list RawRecord :=
  [ mkRaw 1704067200000 1704070800000 (Some (400 # 1)%Q);
    mkRaw 1704070800000 1704074400000 (Some (200 # 1)%Q) ].

Definition jan1 : date := mkDate 2024 1 1.
Definition jan3 : date := mkDate 2024 1 3.

(** Two records two days apart: 2024-01-01T00:00Z and 2024-01-03T00:00Z. *)
Definition gap_records : list RawRecord :=
  [ mkRaw 1704067200000 1704070800000 (Some (400 # 1)%Q);
    mkRaw 1704240000000 1704243600000 (Some (200 # 1)%Q) ].

(** The frames [load_data] builds from the scenario data. *)
Definition two_df : DataFrame :=
  mkDF [ mkRow 1704067200000 1704070800000 (Some (400 # 1)%Q) (Some (40 # 1)%Q);
         mkRow 1704070800000 1704074400000 (Some (200 # 1)%Q) (Some (20 # 1)%Q) ]
       None None.

Definition gap_df : DataFrame :=
  mkDF [ mkRow 1704067200000 1704070800000 (Some (400 # 1)%Q) (Some (40 # 1)%Q);
         mkRow 1704240000000 1704243600000 (Some (200 # 1)%Q) (Some (20 # 1)%Q) ]
       None None.

(** An output row has a contributing record when some retained row falls in
    the bin the row is labelled with. *)
Definition has_records (rule : Rule) (rs : list Row) (row : AggRow) : bool :=
  existsb (fun r =>
             label_of rule (period_of rule (start_timestamp r))
             =? agg_start_timestamp row)
          rs.

(** The resample rule behind an aggregated view. *)
Definition mode_of_rule (rule : Rule) : AggMode :=
  match rule with
  | D => Taeglich
  | M => Monatlich
  end.

(** [f] holds on the [n] integers from [lo] on. *)
Fixpoint forall_from (f : Z -> bool) (lo : Z) (n : nat) : bool :=
  match n with
  | O => true
  | S n' => f lo && forall_from f (lo + 1) n'
  end.

(** ** The bounds of the date widget (lines 40-41) *)

(** [Series.min()] and [Series.max()] of a datetime column; NaT ([None]) on an
    empty column. *)
Definition Timestamp_min (l : list Z) : option Z :=
  match l with
  | [] => None
  | t :: l' => Some (fold_left Z.min l' t)
  end.

Definition Timestamp_max (l : list Z) : option Z :=
  match l with
  | [] => None
  | t :: l' => Some (fold_left Z.max l' t)
  end.

(** [min_date] and [max_date]: the dates of the earliest and of the latest
    start time; they are the default value of the date range. *)
Definition min_date (df : DataFrame) : option date :=
  option_map dt_date (Timestamp_min (map start_timestamp (rows df))).

Definition max_date (df : DataFrame) : option date :=
  option_map dt_date (Timestamp_max (map start_timestamp (rows df))).

(** A row starts in the half-open window from [lo] to [hi]. *)
Definition in_window (lo hi : Z) (r : Row) : bool :=
  (lo <=? start_timestamp r) && (start_timestamp r <? hi).

(** Lines 123-147: the two x values of a tariff line, the earliest and the
    latest timestamp of the plotted frame (NaT, [None], when it is empty). *)
Definition tariff_line_x (filtered_df : Frame) : option Z * option Z :=
  (Timestamp_min (time_column filtered_df),
   Timestamp_max (time_column filtered_df)).

(** ** Vocabulary of the statements *)

(** The bins [resample] emits are those between the bin of some row and the
    bin of some row. *)
Definition in_span (rule : Rule) (rs : list Row) (b : Z) : Prop :=
  exists r1 r2, In r1 rs /\ In r2 rs /\
    period_of rule (start_timestamp r1) <= b
    /\ b <= period_of rule (start_timestamp r2).

(** What is checked on each month of one 400-year cycle: the month starts on
    a day whose civil date is the first of that month, it has 28 to 31 days,
    and its last day has the civil date of that month with the length of the
    month as day. *)
Definition month_ok (mi : Z) : bool :=
  let c := civil_from_days (month_first_day mi) in
  let e := civil_from_days (month_last_day mi) in
  let len := month_first_day (mi + 1) - month_first_day mi in
  (year c =? mi / 12) && (month c =? mi mod 12 + 1) && (day c =? 1)
  && (28 <=? len) && (len <=? 31)
  && (year e =? mi / 12) && (month e =? mi mod 12 + 1) && (day e =? len).

(** The same facts as propositions. *)
Definition month_facts (mi : Z) : Prop :=
  civil_from_days (month_first_day mi) = mkDate (mi / 12) (mi mod 12 + 1) 1
  /\ 28 <= month_first_day (mi + 1) - month_first_day mi <= 31
  /\ civil_from_days (month_last_day mi) =
     mkDate (mi / 12) (mi mod 12 + 1)
            (month_first_day (mi + 1) - month_first_day mi).

(** * Facts about the calendar *)

Lemma forall_from_spec (f : Z -> bool) (n : nat) :
  forall lo, forall_from f lo n = true ->
  forall x, lo <= x < lo + Z.of_nat n -> f x = true.
Proof.
  induction n as [|n IH]; intros lo H x Hx; [lia|].
  cbn [forall_from] in H. apply andb_prop in H as [H0 H1].
  destruct (Z.eq_dec x lo) as [->|Hne]; [exact H0|].
  apply (IH (lo + 1) H1). lia.
Qed.

Lemma Zrange_In (lo hi x : Z) : In x (Zrange lo hi) <-> lo <= x <= hi.
Proof.
  unfold Zrange. rewrite in_map_iff. split.
  - intros [i [<- Hi]]. apply in_seq in Hi. lia.
  - intros H. exists (Z.to_nat (x - lo)). split; [lia|].
    apply in_seq. lia.
Qed.

(** The Gregorian calendar repeats every 400 years, 4800 months, 146097
    days. *)
Lemma civil_from_days_shift (z k : Z) :
  civil_from_days (z + k * DAYS_PER_ERA) =
  mkDate (year (civil_from_days z) + 400 * k)
         (month (civil_from_days z)) (day (civil_from_days z)).
Proof.
  unfold civil_from_days, DAYS_PER_ERA. cbv zeta.
  set (q := (z + 719468) / 146097).
  assert (Hq : (z + k * 146097 + 719468) / 146097 = q + k).
  { unfold q. rewrite <- Z.div_add by lia. f_equal. ring. }
  rewrite Hq.
  replace (z + k * 146097 + 719468 - (q + k) * 146097)
    with (z + 719468 - q * 146097) by ring.
  cbn [year month day].
  set (doe := z + 719468 - q * 146097).
  set (yoe := (doe - doe / 1460 + doe / 36524 - doe / 146096) / 365).
  set (doy := doe - (365 * yoe + yoe / 4 - yoe / 100)).
  set (mp := (5 * doy + 2) / 153).
  destruct ((if mp <? 10 then mp + 3 else mp - 9) <=? 2); f_equal; ring.
Qed.

Lemma days_from_civil_shift (y m d k : Z) :
  days_from_civil (y + 400 * k) m d = days_from_civil y m d + k * DAYS_PER_ERA.
Proof.
  unfold days_from_civil, DAYS_PER_ERA. cbv zeta.
  set (y0 := if m <=? 2 then y - 1 else y).
  assert (Hy : (if m <=? 2 then y + 400 * k - 1 else y + 400 * k) = y0 + k * 400).
  { unfold y0. destruct (m <=? 2); ring. }
  rewrite Hy, Z.div_add by lia.
  replace (y0 + k * 400 - (y0 / 400 + k) * 400) with (y0 - y0 / 400 * 400)
    by ring.
  ring.
Qed.

Lemma month_first_day_shift (mi k : Z) :
  month_first_day (mi + k * MONTHS_PER_ERA) =
  month_first_day mi + k * DAYS_PER_ERA.
Proof.
  unfold month_first_day, MONTHS_PER_ERA.
  replace (mi + k * 4800) with (mi + (400 * k) * 12) by ring.
  rewrite Z.div_add, Z_mod_plus_full by lia.
  apply days_from_civil_shift.
Qed.

Lemma months_of_era_ok :
  forall_from month_ok 0 (Z.to_nat MONTHS_PER_ERA) = true.
Proof. vm_compute. reflexivity. Qed.

Lemma month_ok_spec (mi : Z) : month_ok mi = true -> month_facts mi.
Proof.
  unfold month_ok, month_facts. cbv zeta.
  destruct (civil_from_days (month_first_day mi)) as [y m d].
  destruct (civil_from_days (month_last_day mi)) as [y' m' d'].
  cbn [year month day].
  rewrite !andb_true_iff, !Z.eqb_eq, !Z.leb_le.
  intros [[[[[[[Hy Hm] Hd] Hlo] Hhi] Hy'] Hm'] Hd'].
  repeat split; try assumption; congruence.
Qed.

Lemma month_facts_shift (r k : Z) :
  month_facts r -> month_facts (r + k * MONTHS_PER_ERA).
Proof.
  unfold month_facts, month_last_day.
  replace (r + k * MONTHS_PER_ERA + 1) with (r + 1 + k * MONTHS_PER_ERA) by ring.
  rewrite !month_first_day_shift.
  replace (month_first_day (r + 1) + k * DAYS_PER_ERA - 1)
    with (month_first_day (r + 1) - 1 + k * DAYS_PER_ERA) by ring.
  rewrite !civil_from_days_shift.
  assert (Hd : (r + k * MONTHS_PER_ERA) / 12 = r / 12 + 400 * k).
  { unfold MONTHS_PER_ERA.
    replace (r + k * 4800) with (r + (400 * k) * 12) by ring.
    now rewrite Z.div_add by lia. }
  assert (Hm : (r + k * MONTHS_PER_ERA) mod 12 = r mod 12).
  { unfold MONTHS_PER_ERA.
    replace (r + k * 4800) with (r + (400 * k) * 12) by ring.
    now rewrite Z_mod_plus_full. }
  rewrite Hd, Hm.
  replace (month_first_day (r + 1) + k * DAYS_PER_ERA
           - (month_first_day r + k * DAYS_PER_ERA))
    with (month_first_day (r + 1) - month_first_day r) by ring.
  intros [-> [Hlen ->]]. cbn [year month day]. auto.
Qed.

Lemma month_facts_all (mi : Z) : month_facts mi.
Proof.
  pose (k := mi / MONTHS_PER_ERA). pose (r := mi mod MONTHS_PER_ERA).
  assert (Hr : 0 <= r < MONTHS_PER_ERA)
    by (apply Z.mod_pos_bound; reflexivity).
  assert (Hmi : mi = r + k * MONTHS_PER_ERA).
  { unfold r, k. rewrite Z.mod_eq by (unfold MONTHS_PER_ERA; lia). ring. }
  rewrite Hmi. apply month_facts_shift, month_ok_spec.
  apply (forall_from_spec month_ok _ 0 months_of_era_ok).
  rewrite Z2Nat.id by (unfold MONTHS_PER_ERA; lia). lia.
Qed.

(** The first day of a month has the civil date (year, month, 1). *)
Lemma civil_month_first_day (mi : Z) :
  civil_from_days (month_first_day mi) = mkDate (mi / 12) (mi mod 12 + 1) 1.
Proof. apply month_facts_all. Qed.

(** A month has 28 to 31 days. *)
Lemma month_length_range (mi : Z) :
  28 <= month_first_day (mi + 1) - month_first_day mi <= 31.
Proof. apply month_facts_all. Qed.

(** The last day of a month has the civil date (year, month, length). *)
Lemma civil_month_last_day (mi : Z) :
  civil_from_days (month_last_day mi) =
  mkDate (mi / 12) (mi mod 12 + 1)
         (month_first_day (mi + 1) - month_first_day mi).
Proof. apply month_facts_all. Qed.

Lemma month_last_day_lt (a b : Z) :
  a < b -> month_last_day a < month_last_day b.
Proof.
  intros Hab. unfold month_last_day.
  assert (H : forall n : nat,
             month_first_day (a + 1) < month_first_day (a + 1 + Z.of_nat (S n))).
  { induction n as [|n IH].
    - pose proof (month_length_range (a + 1)).
      replace (a + 1 + Z.of_nat 1) with (a + 1 + 1) by lia. lia.
    - pose proof (month_length_range (a + 1 + Z.of_nat (S n))).
      replace (a + 1 + Z.of_nat (S (S n)))
        with (a + 1 + Z.of_nat (S n) + 1) by lia.
      lia. }
  specialize (H (Z.to_nat (b - a - 1))).
  replace (a + 1 + Z.of_nat (S (Z.to_nat (b - a - 1)))) with (b + 1) in H by lia.
  lia.
Qed.

(** The civil date of a day has a month between 1 and 12. *)
Lemma civil_month_range (z : Z) : 1 <= month (civil_from_days z) <= 12.
Proof.
  unfold civil_from_days, DAYS_PER_ERA. cbv zeta. cbn [month].
  set (z1 := z + 719468).
  set (era := z1 / 146097).
  set (doe := z1 - era * 146097).
  assert (Hdoe : 0 <= doe < 146097).
  { unfold doe, era. pose proof (Z.mod_pos_bound z1 146097 ltac:(lia)) as H.
    rewrite Z.mod_eq in H by lia. lia. }
  clearbody doe. clear era z1 z.
  set (yoe := (doe - doe / 1460 + doe / 36524 - doe / 146096) / 365).
  set (doy := doe - (365 * yoe + yoe / 4 - yoe / 100)).
  assert (Hdoy : 0 <= doy <= 365)
    by (unfold doy, yoe; Z.div_mod_to_equations; lia).
  set (mp := (5 * doy + 2) / 153).
  assert (0 <= mp <= 11) by (unfold mp; Z.div_mod_to_equations; lia).
  destruct (mp <? 10) eqn:E; [apply Z.ltb_lt in E | apply Z.ltb_ge in E]; lia.
Qed.

(** The day number of the civil date of a day is that day. *)
Lemma days_from_civil_from_days (z : Z) :
  days_from_civil (year (civil_from_days z)) (month (civil_from_days z))
                  (day (civil_from_days z)) = z.
Proof.
  unfold civil_from_days, days_from_civil, DAYS_PER_ERA. cbv zeta.
  cbn [year month day].
  set (z1 := z + 719468).
  set (era := z1 / 146097).
  set (doe := z1 - era * 146097).
  assert (Hdoe : 0 <= doe < 146097).
  { unfold doe, era. pose proof (Z.mod_pos_bound z1 146097 ltac:(lia)) as H.
    rewrite Z.mod_eq in H by lia. lia. }
  assert (Hz : z = doe + era * 146097 - 719468) by (unfold doe, z1; ring).
  clearbody doe era. clear z1. subst z.
  set (yoe := (doe - doe / 1460 + doe / 36524 - doe / 146096) / 365).
  set (doy := doe - (365 * yoe + yoe / 4 - yoe / 100)).
  assert (Hyoe : 0 <= yoe <= 399)
    by (unfold yoe; Z.div_mod_to_equations; lia).
  assert (Hdoy : 0 <= doy <= 365)
    by (unfold doy, yoe; Z.div_mod_to_equations; lia).
  assert (Hsum : doe = 365 * yoe + yoe / 4 - yoe / 100 + doy)
    by (unfold doy; ring).
  clearbody doy. clearbody yoe.
  set (mp := (5 * doy + 2) / 153).
  assert (Hmp : 0 <= mp <= 11) by (unfold mp; Z.div_mod_to_equations; lia).
  set (m := if mp <? 10 then mp + 3 else mp - 9).
  assert (Hm : (mp < 10 /\ m = mp + 3) \/ (10 <= mp /\ m = mp - 9)).
  { unfold m. destruct (mp <? 10) eqn:E;
      [apply Z.ltb_lt in E | apply Z.ltb_ge in E]; lia. }
  clearbody m.
  assert (Hy : (if m <=? 2
                then (if m <=? 2 then yoe + era * 400 + 1
                      else yoe + era * 400) - 1
                else (if m <=? 2 then yoe + era * 400 + 1
                      else yoe + era * 400))
               = yoe + era * 400)
    by (destruct (m <=? 2); ring).
  rewrite Hy.
  assert (Hback : (if 2 <? m then m - 3 else m + 9) = mp).
  { destruct (2 <? m) eqn:E; [apply Z.ltb_lt in E | apply Z.ltb_ge in E]; lia. }
  rewrite Hback.
  assert (Hera : (yoe + era * 400) / 400 = era).
  { rewrite Z.div_add by lia. rewrite Z.div_small by lia. ring. }
  rewrite Hera.
  replace (yoe + era * 400 - era * 400) with yoe by ring.
  replace ((153 * mp + 2) / 5 + (doy - (153 * mp + 2) / 5 + 1) - 1)
    with doy by ring.
  lia.
Qed.

(** The year and the month of a date are recovered from its month index. *)
Lemma month_index_split (z : Z) :
  month_index (civil_from_days z) / 12 = year (civil_from_days z) /\
  month_index (civil_from_days z) mod 12 + 1 = month (civil_from_days z).
Proof.
  pose proof (civil_month_range z) as Hm. unfold month_index.
  set (y := year (civil_from_days z)) in *.
  set (m := month (civil_from_days z)) in *.
  clearbody y m. Z.div_mod_to_equations. lia.
Qed.

Lemma days_of_ms_midnight (d : Z) : days_of_ms (d * MS_PER_DAY) = d.
Proof. unfold days_of_ms, MS_PER_DAY. apply Z.div_mul. lia. Qed.

(** The label of a bin determines the bin. *)
Lemma label_of_inj (rule : Rule) (a b : Z) :
  label_of rule a = label_of rule b -> a = b.
Proof.
  destruct rule; cbn [label_of]; unfold MS_PER_DAY; intros H.
  - lia.
  - assert (E : month_last_day a = month_last_day b) by lia.
    destruct (Z.lt_trichotomy a b) as [Hlt | [Heq | Hgt]]; [|exact Heq|].
    + pose proof (month_last_day_lt a b Hlt). lia.
    + pose proof (month_last_day_lt b a Hgt). lia.
Qed.

(** * Facts about the pandas operations *)

Lemma select_map_filter {A : Type} (f : A -> bool) (l : list A) :
  select (map f l) l = filter f l.
Proof.
  induction l as [|x l IH]; [reflexivity|].
  cbn [map select filter]. rewrite IH. reflexivity.
Qed.

Lemma fold_min_le (ps : list Z) :
  forall p, fold_left Z.min ps p <= p /\
            (forall x, In x ps -> fold_left Z.min ps p <= x).
Proof.
  induction ps as [|a ps IH]; intros p; cbn [fold_left].
  - split; [lia | intros x []].
  - destruct (IH (Z.min p a)) as [H1 H2]. split; [lia|].
    intros x [<- | Hx]; [lia | auto].
Qed.

Lemma fold_min_In (ps : list Z) :
  forall p, In (fold_left Z.min ps p) (p :: ps).
Proof.
  induction ps as [|a ps IH]; intros p; cbn [fold_left]; [now left|].
  destruct (IH (Z.min p a)) as [H | H].
  - destruct (Z.min_spec p a) as [[_ E] | [_ E]].
    + left. rewrite <- H. now symmetry.
    + right. left. rewrite <- H. now symmetry.
  - right. right. exact H.
Qed.

Lemma fold_max_ge (ps : list Z) :
  forall p, p <= fold_left Z.max ps p /\
            (forall x, In x ps -> x <= fold_left Z.max ps p).
Proof.
  induction ps as [|a ps IH]; intros p; cbn [fold_left].
  - split; [lia | intros x []].
  - destruct (IH (Z.max p a)) as [H1 H2]. split; [lia|].
    intros x [<- | Hx]; [lia | auto].
Qed.

Lemma fold_max_In (ps : list Z) :
  forall p, In (fold_left Z.max ps p) (p :: ps).
Proof.
  induction ps as [|a ps IH]; intros p; cbn [fold_left]; [now left|].
  destruct (IH (Z.max p a)) as [H | H].
  - destruct (Z.max_spec p a) as [[_ E] | [_ E]].
    + right. left. rewrite <- H. now symmetry.
    + left. rewrite <- H. now symmetry.
  - right. right. exact H.
Qed.

Lemma resample_mean_In (rule : Rule) (rs : list Row) (row : AggRow) :
  In row (resample_mean rule rs) <->
  exists b, in_span rule rs b /\
    row = mkAgg (label_of rule b)
                (Series_mean (map price_ct_kwh (bin_rows rule b rs))).
Proof.
  unfold resample_mean.
  set (per := fun r : Row => period_of rule (start_timestamp r)).
  destruct (map per rs) as [|p ps] eqn:E.
  - apply map_eq_nil in E. subst rs. split; [intros [] |].
    intros [b [[r1 [_ [[] _]]] _]].
  - cbv zeta. rewrite in_map_iff.
    pose proof (fold_min_le ps p) as [Hlo1 Hlo2].
    pose proof (fold_max_ge ps p) as [Hhi1 Hhi2].
    pose proof (fold_min_In ps p) as Hlo. pose proof (fold_max_In ps p) as Hhi.
    rewrite <- E in Hlo, Hhi. apply in_map_iff in Hlo, Hhi.
    destruct Hlo as [r1 [Hr1 Hin1]]. destruct Hhi as [r2 [Hr2 Hin2]].
    assert (Hall : forall r, In r rs ->
              fold_left Z.min ps p <= per r <= fold_left Z.max ps p).
    { intros r Hr. assert (Hp : In (per r) (p :: ps))
        by (rewrite <- E; now apply in_map).
      destruct Hp as [<- | Hp]; [lia|].
      split; [apply Hlo2 | apply Hhi2]; exact Hp. }
    split.
    + intros [b [<- Hb]]. apply Zrange_In in Hb. exists b. split; [|reflexivity].
      exists r1, r2. unfold per in Hr1, Hr2. repeat split; try assumption; lia.
    + intros [b [[s1 [s2 [Hs1 [Hs2 [Hle1 Hle2]]]]] ->]]. exists b.
      split; [reflexivity|]. apply Zrange_In.
      pose proof (Hall s1 Hs1). pose proof (Hall s2 Hs2). unfold per in *. lia.
Qed.

Lemma bin_rows_nil (rule : Rule) (b : Z) (rs : list Row) :
  bin_rows rule b rs = [] <->
  forall r, In r rs -> period_of rule (start_timestamp r) <> b.
Proof.
  unfold bin_rows. split.
  - intros H r Hr Hp.
    assert (Hin : In r (filter (fun r => period_of rule (start_timestamp r) =? b) rs))
      by (apply filter_In; split; [exact Hr | now apply Z.eqb_eq]).
    rewrite H in Hin. exact Hin.
  - intros H. induction rs as [|r rs IH]; [reflexivity|].
    cbn [filter]. destruct (Z.eqb_spec (period_of rule (start_timestamp r)) b) as [Hp|_].
    + exfalso. apply (H r); [now left | exact Hp].
    + apply IH. intros r' Hr'. apply H. now right.
Qed.

(** Removing NaN cells from a column does not change what [dropna] keeps. *)
Lemma dropna_filter {A : Type} (price : A -> float) (keep : A -> bool)
    (l : list A) :
  (forall x, In x l -> keep x = false -> price x = NaN) ->
  dropna (map price (filter keep l)) = dropna (map price l).
Proof.
  induction l as [|x l IH]; intros H; [reflexivity|].
  cbn [filter map]. destruct (keep x) eqn:K.
  - cbn [map dropna]. rewrite IH by (intros; apply H; [now right | assumption]).
    reflexivity.
  - rewrite IH by (intros; apply H; [now right | assumption]).
    rewrite (H x (or_introl eq_refl) K). reflexivity.
Qed.

Lemma insert_key_In {K : Type} (eqb leb : K -> K -> bool) (k x : K)
    (l : list K) :
  In x (insert_key eqb leb k l) -> x = k \/ In x l.
Proof.
  induction l as [|y l IH]; cbn [insert_key].
  - intros [<- | []]. now left.
  - destruct (eqb k y); [now right|].
    destruct (leb k y).
    + intros [<- | H]; [now left | now right].
    + intros [<- | H]; [right; now left|].
      destruct (IH H) as [-> | H']; [now left | right; now right].
Qed.

Lemma sorted_unique_In {K : Type} (eqb leb : K -> K -> bool) (keys : list K)
    (x : K) :
  In x (sorted_unique eqb leb keys) -> In x keys.
Proof.
  unfold sorted_unique.
  assert (H : forall acc, In x (fold_left (fun acc k => insert_key eqb leb k acc) keys acc) ->
                          In x acc \/ In x keys).
  { induction keys as [|k keys IH]; intros acc; cbn [fold_left]; [now left|].
    intros Hx. destruct (IH _ Hx) as [Hacc | Hk].
    - destruct (insert_key_In _ _ _ _ _ Hacc) as [-> | Hacc'].
      + right. now left.
      + now left.
    - right. now right. }
  intros Hx. destruct (H [] Hx) as [[] | Hk]. exact Hk.
Qed.

(** * The claims *)

(** C1, as stated, fails.  Records on 2024-01-01 and 2024-01-03, range
    2024-01-01..2024-01-03, daily view: 2024-01-02 (day 19724) lies in the
    range and has no record, yet the output has a row for it, valued NaN. *)
Lemma sparse_bucket_counterexample :
  load_data gap_records = Some gap_df
  /\ civil_from_days 19724 = mkDate 2024 1 2
  /\ date_leb jan1 (mkDate 2024 1 2) = true
  /\ date_leb (mkDate 2024 1 2) jan3 = true
  /\ bin_rows D 19724 (rows (filter_step gap_df jan1 jan3)) = []
  /\ filter_and_aggregate gap_df jan1 jan3 Taeglich =
     Aggregated [ mkAgg 1704067200000 (Some (40 # 1)%Q);
                  mkAgg (label_of D 19724) NaN;
                  mkAgg 1704240000000 (Some (20 # 1)%Q) ].
Proof. repeat split; vm_compute; reflexivity. Qed.

(** C1, amended.  In the daily and the monthly view the output has a row for
    a day/month exactly when that day/month lies between the day/month of
    some retained record and the day/month of some retained record (the span
    from the earliest to the latest retained record); a day/month of that
    span without retained records has a row whose value is NaN, and a
    day/month outside the span has no row. *)
Theorem resample_rows_cover_span (rule : Rule) (df : DataFrame)
    (start_date end_date : date) :
  exists out,
    filter_and_aggregate df start_date end_date (mode_of_rule rule)
    = Aggregated out
    /\ forall b,
         ((exists row, In row out
                       /\ agg_start_timestamp row = label_of rule b)
          <-> in_span rule (rows (filter_step df start_date end_date)) b)
         /\ (bin_rows rule b (rows (filter_step df start_date end_date)) = []
             -> forall row, In row out ->
                agg_start_timestamp row = label_of rule b ->
                agg_price_ct_kwh row = NaN).
Proof.
  set (F := rows (filter_step df start_date end_date)).
  exists (resample_mean rule F). split.
  { destruct rule; reflexivity. }
  intros b. split; [split|].
  - intros [row [Hin Hk]]. apply resample_mean_In in Hin.
    destruct Hin as [b' [Hspan ->]]. cbn [agg_start_timestamp] in Hk.
    apply label_of_inj in Hk. now subst b'.
  - intros Hspan.
    exists (mkAgg (label_of rule b)
                  (Series_mean (map price_ct_kwh (bin_rows rule b F)))).
    split; [|reflexivity]. apply resample_mean_In. exists b. now split.
  - intros Hnil row Hin Hk. apply resample_mean_In in Hin.
    destruct Hin as [b' [_ ->]]. cbn [agg_start_timestamp] in Hk.
    apply label_of_inj in Hk. subst b'. cbn [agg_price_ct_kwh].
    rewrite Hnil. reflexivity.
Qed.

(** On the records of 2024-01-01 and 2024-01-03: the row of 2024-01-02 is
    NaN. *)
Lemma resample_rows_cover_span_witness :
  bin_rows D 19724 (rows (filter_step gap_df jan1 jan3)) = []
  /\ exists out,
       filter_and_aggregate gap_df jan1 jan3 (mode_of_rule D) = Aggregated out
       /\ forall row, In row out ->
            agg_start_timestamp row = label_of D 19724 ->
            agg_price_ct_kwh row = NaN.
Proof.
  split; [vm_compute; reflexivity|].
  destruct (resample_rows_cover_span D gap_df jan1 jan3) as [out [Hout H]].
  exists out. split; [exact Hout|].
  apply (proj2 (H 19724)). vm_compute. reflexivity.
Defined.

(** C2, as stated, fails.  The two records of 2024-01-01 in the monthly view
    give one row, keyed 2024-01-31T00:00, not 2024-01-01T00:00. *)
Lemma monthly_key_counterexample :
  filter_and_aggregate two_df jan1 jan1 Monatlich
  = Aggregated [ mkAgg 1706659200000 (Some (30 # 1)%Q) ]
  /\ dt_date 1706659200000 = mkDate 2024 1 31
  /\ dt_date 1706659200000 <> mkDate 2024 1 1.
Proof.
  split; [vm_compute; reflexivity|].
  split; [vm_compute; reflexivity|].
  vm_compute. discriminate.
Qed.

(** C2, amended.  In the monthly view the key of every row is midnight of the
    last day of a calendar month (the next day is the first of a month), and
    every retained record has a row keyed by the last day of the calendar
    month of that record. *)
Theorem monthly_key_is_month_end (df : DataFrame) (start_date end_date : date) :
  exists out,
    filter_and_aggregate df start_date end_date Monatlich = Aggregated out
    /\ (forall row, In row out ->
          agg_start_timestamp row mod MS_PER_DAY = 0
          /\ day (dt_date (agg_start_timestamp row + MS_PER_DAY)) = 1
          /\ 28 <= day (dt_date (agg_start_timestamp row)) <= 31)
    /\ (forall r, In r (rows (filter_step df start_date end_date)) ->
          exists row, In row out
            /\ year (dt_date (agg_start_timestamp row))
               = year (dt_date (start_timestamp r))
            /\ month (dt_date (agg_start_timestamp row))
               = month (dt_date (start_timestamp r))
            /\ day (dt_date (agg_start_timestamp row + MS_PER_DAY)) = 1).
Proof.
  set (F := rows (filter_step df start_date end_date)).
  assert (Hnext : forall b,
            dt_date (label_of M b + MS_PER_DAY)
            = mkDate ((b + 1) / 12) ((b + 1) mod 12 + 1) 1).
  { intros b. unfold dt_date. cbn [label_of].
    replace (month_last_day b * MS_PER_DAY + MS_PER_DAY)
      with (month_first_day (b + 1) * MS_PER_DAY)
      by (unfold month_last_day; ring).
    rewrite days_of_ms_midnight. apply civil_month_first_day. }
  assert (Hlast : forall b,
            dt_date (label_of M b)
            = mkDate (b / 12) (b mod 12 + 1)
                     (month_first_day (b + 1) - month_first_day b)).
  { intros b. unfold dt_date. cbn [label_of].
    rewrite days_of_ms_midnight. apply civil_month_last_day. }
  exists (resample_mean M F). split; [reflexivity|]. split.
  - intros row Hin. apply resample_mean_In in Hin.
    destruct Hin as [b [_ ->]]. cbn [agg_start_timestamp].
    rewrite Hnext, Hlast. cbn [day]. split; [|split].
    + cbn [label_of]. apply Z_mod_mult.
    + reflexivity.
    + apply month_length_range.
  - intros r Hr. set (b := period_of M (start_timestamp r)).
    exists (mkAgg (label_of M b)
                  (Series_mean (map price_ct_kwh (bin_rows M b F)))).
    split.
    + apply resample_mean_In. exists b. split; [|reflexivity].
      exists r, r. unfold b. repeat split; try assumption; lia.
    + cbn [agg_start_timestamp]. rewrite Hnext, Hlast. cbn [year month day].
      unfold b. cbn [period_of]. unfold dt_date.
      destruct (month_index_split (days_of_ms (start_timestamp r))) as [Hy Hm].
      repeat split; assumption.
Qed.

(** On the two records of 2024-01-01: a row of January 2024 whose next day
    is the first of a month. *)
Lemma monthly_key_is_month_end_witness :
  In (mkRow 1704067200000 1704070800000 (Some (400 # 1)%Q) (Some (40 # 1)%Q))
     (rows (filter_step two_df jan1 jan1))
  /\ exists out,
       filter_and_aggregate two_df jan1 jan1 Monatlich = Aggregated out
       /\ exists row, In row out
            /\ year (dt_date (agg_start_timestamp row)) = 2024
            /\ month (dt_date (agg_start_timestamp row)) = 1
            /\ day (dt_date (agg_start_timestamp row + MS_PER_DAY)) = 1.
Proof.
  assert (Hin : In (mkRow 1704067200000 1704070800000 (Some (400 # 1)%Q)
                          (Some (40 # 1)%Q))
                   (rows (filter_step two_df jan1 jan1)))
    by (vm_compute; tauto).
  split; [exact Hin|].
  destruct (monthly_key_is_month_end two_df jan1 jan1) as [out [Hout [_ H]]].
  exists out. split; [exact Hout|].
  destruct (H _ Hin) as [row [Hrow [Hy [Hm Hd]]]].
  exists row. repeat split; assumption.
Defined.

(** C3.  The two records of 2024-01-01 (400 and 200 EUR/MWh), range
    2024-01-01..2024-01-01, daily view: one row, keyed 2024-01-01T00:00, of
    value (40 + 20) / 2 = 30. *)
Theorem daily_scenario :
  option_map run_filtered_df (main two_records (jan1, jan1) Taeglich)
  = Some (Aggregated [ mkAgg 1704067200000 (Some (30 # 1)%Q) ]).
Proof. vm_compute. reflexivity. Qed.

(** C4.  In the hourly view the output is the filtered frame itself: one
    entry per retained record, in order, with the record's own price; on the
    two records of the scenario the values are 40 and 20, in that order. *)
Theorem hourly_passthrough (df : DataFrame) (start_date end_date : date) :
  filter_and_aggregate df start_date end_date Stuendlich
  = Unaggregated (filter_step df start_date end_date)
  /\ price_column (filter_and_aggregate df start_date end_date Stuendlich)
     = map price_ct_kwh (filter (date_in_range start_date end_date) (rows df))
  /\ time_column (filter_and_aggregate df start_date end_date Stuendlich)
     = map start_timestamp
           (filter (date_in_range start_date end_date) (rows df))
  /\ option_map (fun run => price_column (run_filtered_df run))
                (main two_records (jan1, jan1) Stuendlich)
     = Some [ Some (40 # 1)%Q; Some (20 # 1)%Q ].
Proof.
  split; [reflexivity|].
  unfold filter_and_aggregate, filter_step, date_mask.
  cbn [aggregate_step price_column time_column getitem_mask rows].
  rewrite select_map_filter.
  split; [reflexivity|]. split; [reflexivity|].
  vm_compute. reflexivity.
Qed.

(** C5.  For [start_date <= end_date] the filter step keeps exactly the rows
    whose date lies in the range, in their order: a row is retained if and
    only if it is a row of the dataset with
    [start_date <= date(start_timestamp) <= end_date]. *)
Theorem filter_retains_exactly_range (df : DataFrame)
    (start_date end_date : date) :
  date_leb start_date end_date = true ->
  rows (filter_step df start_date end_date)
  = filter (date_in_range start_date end_date) (rows df)
  /\ forall r,
       In r (rows (filter_step df start_date end_date)) <->
       In r (rows df)
       /\ date_leb start_date (dt_date (start_timestamp r)) = true
       /\ date_leb (dt_date (start_timestamp r)) end_date = true.
Proof.
  intros _.
  assert (E : rows (filter_step df start_date end_date)
              = filter (date_in_range start_date end_date) (rows df)).
  { unfold filter_step, date_mask. cbn [getitem_mask rows].
    apply select_map_filter. }
  split; [exact E|]. intros r. rewrite E, filter_In. unfold date_in_range.
  rewrite andb_true_iff. reflexivity.
Qed.

(** On the range 2024-01-01..2024-01-03. *)
Lemma filter_retains_exactly_range_witness :
  date_leb jan1 jan3 = true
  /\ rows (filter_step gap_df jan1 jan3)
     = filter (date_in_range jan1 jan3) (rows gap_df).
Proof.
  split; [reflexivity|].
  exact (proj1 (filter_retains_exactly_range gap_df jan1 jan3 eq_refl)).
Defined.

(** C6.  The weekday table is always produced, its keys are Monday to Sunday
    in that order whatever the data, and a weekday on which no record starts
    has the value NaN in its slot. *)
Theorem weekday_pattern_fixed_order (df : DataFrame) (date_range : date * date)
    (agg_mode : AggMode) :
  exists t,
    avg_by_day (script df date_range agg_mode) = Some t
    /\ map fst t
       = ["Monday"; "Tuesday"; "Wednesday"; "Thursday"; "Friday"; "Saturday";
          "Sunday"]%string
    /\ forall w,
         In w weekday_names ->
         (forall r, In r (rows df) -> dt_day_name (start_timestamp r) <> w) ->
         In (w, NaN) t.
Proof.
  destruct date_range as [start_date end_date].
  unfold script, pattern_step. cbv zeta.
  cbn [setitem_hour setitem_weekday rows hour weekday option_map avg_by_day].
  eexists. split; [reflexivity|]. split; [reflexivity|].
  intros w Hw Habsent. unfold reindex. apply in_map_iff.
  exists w. split; [|exact Hw].
  destruct (find _ _) as [kv|] eqn:Hfind; [exfalso | reflexivity].
  apply find_some in Hfind. destruct Hfind as [Hin Heq].
  apply String.eqb_eq in Heq. unfold groupby_mean in Hin.
  apply in_map_iff in Hin. destruct Hin as [k [<- Hk]].
  cbn [fst] in Heq. subst k. apply sorted_unique_In in Hk.
  apply in_map_iff in Hk. destruct Hk as [r [Hname Hr]].
  exact (Habsent r Hr Hname).
Qed.

(** On the two records of 2024-01-01, a Monday: the slot of Sunday is NaN. *)
Lemma weekday_pattern_fixed_order_witness :
  In "Sunday"%string weekday_names
  /\ exists t,
       avg_by_day (script two_df (jan1, jan1) Taeglich) = Some t
       /\ In ("Sunday"%string, NaN) t.
Proof.
  split; [vm_compute; tauto|].
  destruct (weekday_pattern_fixed_order two_df (jan1, jan1) Taeglich)
    as [t [Ht [_ Hnan]]].
  exists t. split; [exact Ht|].
  apply Hnan; [vm_compute; tauto|].
  intros r [<- | [<- | []]]; vm_compute; discriminate.
Defined.

(** C7, as stated, fails.  After a run on the two records of the scenario the
    frame [df] is not the frame [load_data] returned: it has the two columns
    ["hour"] and ["weekday"]. *)
Lemma dataset_modified_counterexample :
  load_data two_records = Some two_df
  /\ run_df (script two_df (jan1, jan1) Taeglich)
     = mkDF (rows two_df) (Some [0; 1]) (Some ["Monday"; "Monday"]%string)
  /\ run_df (script two_df (jan1, jan1) Taeglich) <> two_df.
Proof.
  split; [vm_compute; reflexivity|].
  split; [vm_compute; reflexivity|].
  vm_compute. discriminate.
Qed.

(** C7, amended.  A run leaves the rows of the dataset over the loaded
    columns as [load_data] returned them; the pattern analysis adds to the
    dataset the two columns ["hour"] and ["weekday"], holding the hour and
    the weekday name of each row's start time. *)
Theorem script_keeps_rows_adds_columns (df : DataFrame)
    (date_range : date * date) (agg_mode : AggMode) :
  rows (run_df (script df date_range agg_mode)) = rows df
  /\ hour (run_df (script df date_range agg_mode))
     = Some (map (fun r => dt_hour (start_timestamp r)) (rows df))
  /\ weekday (run_df (script df date_range agg_mode))
     = Some (map (fun r => dt_day_name (start_timestamp r)) (rows df)).
Proof.
  destruct date_range as [start_date end_date].
  split; [reflexivity|]. split; reflexivity.
Qed.

(** C8.  The two pattern tables of a run depend on the dataset only: two runs
    on the same dataset with different date ranges and views give the same
    tables. *)
Theorem patterns_independent_of_filter (df : DataFrame)
    (range1 range2 : date * date) (mode1 mode2 : AggMode) :
  avg_by_hour (script df range1 mode1) = avg_by_hour (script df range2 mode2)
  /\ avg_by_day (script df range1 mode1) = avg_by_day (script df range2 mode2).
Proof.
  destruct range1 as [s1 e1], range2 as [s2 e2].
  split; reflexivity.
Qed.

(** C9.  On an empty series the three statistics are NaN, in the resampled
    and in the unaggregated shape of [filtered_df]; [summarize] is total, it
    has no failure case. *)
Theorem summarize_empty :
  summarize (Aggregated []) = mkStats NaN NaN NaN
  /\ forall h w, summarize (Unaggregated (mkDF [] h w)) = mkStats NaN NaN NaN.
Proof. split; [reflexivity | intros h w; reflexivity]. Qed.

(** C10.  In the daily and the monthly view the statistics skip NaN cells:
    they are the statistics of the output restricted to the rows that have at
    least one contributing record. *)
Theorem summarize_skips_empty_buckets (rule : Rule) (df : DataFrame)
    (start_date end_date : date) :
  exists out,
    filter_and_aggregate df start_date end_date (mode_of_rule rule)
    = Aggregated out
    /\ summarize (Aggregated out)
       = summarize
           (Aggregated
              (filter (has_records rule
                         (rows (filter_step df start_date end_date)))
                      out)).
Proof.
  set (F := rows (filter_step df start_date end_date)).
  exists (resample_mean rule F). split; [destruct rule; reflexivity|].
  assert (E : dropna (map agg_price_ct_kwh
                          (filter (has_records rule F) (resample_mean rule F)))
              = dropna (map agg_price_ct_kwh (resample_mean rule F))).
  { apply dropna_filter. intros row Hin Hno.
    apply resample_mean_In in Hin. destruct Hin as [b [_ ->]].
    cbn [agg_price_ct_kwh].
    assert (Hnil : bin_rows rule b F = []).
    { apply bin_rows_nil. intros r Hr Hp.
      unfold has_records in Hno. cbn [agg_start_timestamp] in Hno.
      assert (Hex : existsb
                (fun r0 => label_of rule (period_of rule (start_timestamp r0))
                           =? label_of rule b) F = true).
      { apply existsb_exists. exists r. split; [exact Hr|].
        rewrite Hp. apply Z.eqb_refl. }
      rewrite Hex in Hno. discriminate. }
    rewrite Hnil. reflexivity. }
  unfold summarize, Series_mean, Series_min, Series_max.
  cbn [price_column]. rewrite E. reflexivity.
Qed.
(** * More facts about the calendar *)

(** The day of a civil date counts from the first day of its month. *)
Lemma days_from_civil_day (y m d : Z) :
  days_from_civil y m d = days_from_civil y m 1 + (d - 1).
Proof. unfold days_from_civil. cbv zeta. ring. Qed.

(** The parts of [civil_from_days]: the era, the year of the era, the day of
    the year counted from March 1, and the month counted from March. *)
Lemma civil_from_days_parts (z : Z) :
  exists era yoe doy mp Y m,
    0 <= yoe <= 399 /\ 0 <= doy /\ 0 <= mp <= 11
    /\ 153 * mp <= 5 * doy + 2 < 153 * (mp + 1)
    /\ z = era * 146097 + (365 * yoe + yoe / 4 - yoe / 100) + doy - 719468
    /\ (yoe < 399 ->
        365 * yoe + yoe / 4 - yoe / 100 + doy
        < 365 * (yoe + 1) + (yoe + 1) / 4 - (yoe + 1) / 100)
    /\ 365 * yoe + yoe / 4 - yoe / 100 + doy < 146097
    /\ ((mp < 10 /\ m = mp + 3 /\ Y = yoe + era * 400)
        \/ (10 <= mp /\ m = mp - 9 /\ Y = yoe + era * 400 + 1))
    /\ civil_from_days z = mkDate Y m (doy - (153 * mp + 2) / 5 + 1).
Proof.
  unfold civil_from_days, DAYS_PER_ERA. cbv zeta.
  set (z1 := z + 719468).
  set (era := z1 / 146097).
  set (doe := z1 - era * 146097).
  assert (Hdoe : 0 <= doe < 146097).
  { unfold doe, era. pose proof (Z.mod_pos_bound z1 146097 ltac:(lia)) as H.
    rewrite Z.mod_eq in H by lia. lia. }
  assert (Hz : z = era * 146097 + doe - 719468) by (unfold doe, z1; ring).
  clearbody doe era. clear z1.
  set (yoe := (doe - doe / 1460 + doe / 36524 - doe / 146096) / 365).
  assert (Hyoe : 0 <= yoe <= 399 /\
                 365 * yoe + yoe / 4 - yoe / 100 <= doe /\
                 (yoe < 399 ->
                  doe < 365 * (yoe + 1) + (yoe + 1) / 4 - (yoe + 1) / 100))
    by (unfold yoe; Z.div_mod_to_equations; lia).
  clearbody yoe.
  set (doy := doe - (365 * yoe + yoe / 4 - yoe / 100)).
  assert (Hdoy : doe = 365 * yoe + yoe / 4 - yoe / 100 + doy)
    by (unfold doy; ring).
  assert (Hdoy' : 0 <= doy <= 365) by (Z.div_mod_to_equations; lia).
  clearbody doy.
  set (mp := (5 * doy + 2) / 153).
  assert (Hmp : 0 <= mp <= 11 /\ 153 * mp <= 5 * doy + 2 < 153 * (mp + 1))
    by (unfold mp; Z.div_mod_to_equations; lia).
  clearbody mp.
  exists era, yoe, doy, mp.
  destruct (Z.ltb_spec mp 10) as [Hlt | Hge].
  - exists (yoe + era * 400), (mp + 3).
    destruct (Z.leb_spec (mp + 3) 2) as [Hc | Hc]; [lia|].
    repeat split; lia.
  - exists (yoe + era * 400 + 1), (mp - 9).
    destruct (Z.leb_spec (mp - 9) 2) as [Hc | Hc]; [|lia].
    repeat split; lia.
Qed.

Lemma days_from_civil_late (y m d : Z) :
  2 < m ->
  days_from_civil y m d =
  y / 400 * 146097
  + ((y - y / 400 * 400) * 365 + (y - y / 400 * 400) / 4
     - (y - y / 400 * 400) / 100 + ((153 * (m - 3) + 2) / 5 + d - 1))
  - 719468.
Proof.
  intros H. unfold days_from_civil, DAYS_PER_ERA. cbv zeta.
  destruct (Z.leb_spec m 2); [lia|]. destruct (Z.ltb_spec 2 m); [|lia].
  reflexivity.
Qed.

Lemma days_from_civil_early (y m d : Z) :
  m <= 2 ->
  days_from_civil y m d =
  (y - 1) / 400 * 146097
  + ((y - 1 - (y - 1) / 400 * 400) * 365 + (y - 1 - (y - 1) / 400 * 400) / 4
     - (y - 1 - (y - 1) / 400 * 400) / 100 + ((153 * (m + 9) + 2) / 5 + d - 1))
  - 719468.
Proof.
  intros H. unfold days_from_civil, DAYS_PER_ERA. cbv zeta.
  destruct (Z.leb_spec m 2); [|lia]. destruct (Z.ltb_spec 2 m); [lia|].
  reflexivity.
Qed.

(** A day lies before the first day of the month after its own. *)
Lemma civil_day_before_next_month (z : Z) :
  z < month_first_day (month_index (civil_from_days z) + 1).
Proof.
  destruct (civil_from_days_parts z)
    as (era & yoe & doy & mp & Y & m & Hyoe & Hdoy & Hmp & Hdiv & Hz & Hend
        & Hera & Hcase & ->).
  unfold month_index, month_first_day. cbn [year month].
  assert (Hera_div : (yoe + era * 400) / 400 = era).
  { rewrite Z.div_add by lia. rewrite Z.div_small by lia. ring. }
  destruct Hcase as [(Hlt & -> & ->) | (Hge & -> & ->)].
  - destruct (Z.eq_dec mp 9) as [-> | Hne].
    + replace ((12 * (yoe + era * 400) + (9 + 3 - 1) + 1) / 12)
        with (yoe + era * 400 + 1) by (Z.div_mod_to_equations; lia).
      replace ((12 * (yoe + era * 400) + (9 + 3 - 1) + 1) mod 12 + 1)
        with 1 by (Z.div_mod_to_equations; lia).
      rewrite days_from_civil_early by lia.
      replace (yoe + era * 400 + 1 - 1) with (yoe + era * 400) by ring.
      rewrite Hera_div.
      replace (yoe + era * 400 - era * 400) with yoe by ring.
      Z.div_mod_to_equations. lia.
    + replace ((12 * (yoe + era * 400) + (mp + 3 - 1) + 1) / 12)
        with (yoe + era * 400) by (Z.div_mod_to_equations; lia).
      replace ((12 * (yoe + era * 400) + (mp + 3 - 1) + 1) mod 12 + 1)
        with (mp + 4) by (Z.div_mod_to_equations; lia).
      rewrite days_from_civil_late by lia.
      rewrite Hera_div.
      replace (yoe + era * 400 - era * 400) with yoe by ring.
      replace (mp + 4 - 3) with (mp + 1) by ring.
      Z.div_mod_to_equations. lia.
  - destruct (Z.eq_dec mp 10) as [-> | Hne].
    + replace ((12 * (yoe + era * 400 + 1) + (10 - 9 - 1) + 1) / 12)
        with (yoe + era * 400 + 1) by (Z.div_mod_to_equations; lia).
      replace ((12 * (yoe + era * 400 + 1) + (10 - 9 - 1) + 1) mod 12 + 1)
        with 2 by (Z.div_mod_to_equations; lia).
      rewrite days_from_civil_early by lia.
      replace (yoe + era * 400 + 1 - 1) with (yoe + era * 400) by ring.
      rewrite Hera_div.
      replace (yoe + era * 400 - era * 400) with yoe by ring.
      Z.div_mod_to_equations. lia.
    + assert (mp = 11) by lia. subst mp.
      replace ((12 * (yoe + era * 400 + 1) + (11 - 9 - 1) + 1) / 12)
        with (yoe + era * 400 + 1) by (Z.div_mod_to_equations; lia).
      replace ((12 * (yoe + era * 400 + 1) + (11 - 9 - 1) + 1) mod 12 + 1)
        with 3 by (Z.div_mod_to_equations; lia).
      rewrite days_from_civil_late by lia.
      destruct (Z.eq_dec yoe 399) as [-> | Hy].
      * replace ((399 + era * 400 + 1) / 400) with (era + 1)
          by (Z.div_mod_to_equations; lia).
        Z.div_mod_to_equations. lia.
      * replace ((yoe + era * 400 + 1) / 400) with era
          by (Z.div_mod_to_equations; lia).
        replace (yoe + era * 400 + 1 - era * 400) with (yoe + 1) by ring.
        specialize (Hend ltac:(lia)).
        Z.div_mod_to_equations. lia.
Qed.

Lemma month_first_day_lt (a b : Z) :
  a < b -> month_first_day a < month_first_day b.
Proof.
  intros Hab. pose proof (month_last_day_lt (a - 1) (b - 1) ltac:(lia)) as H.
  unfold month_last_day in H.
  replace (a - 1 + 1) with a in H by ring.
  replace (b - 1 + 1) with b in H by ring. lia.
Qed.

Lemma month_first_day_le (a b : Z) :
  a <= b -> month_first_day a <= month_first_day b.
Proof.
  intros Hab. destruct (Z.eq_dec a b) as [-> | Hne]; [lia|].
  pose proof (month_first_day_lt a b ltac:(lia)). lia.
Qed.

Lemma civil_day_positive (z : Z) : 1 <= day (civil_from_days z).
Proof.
  destruct (civil_from_days_parts z)
    as (era & yoe & doy & mp & Y & m & _ & Hdoy & Hmp & Hdiv & _ & _ & _ & _
        & ->).
  cbn [day]. Z.div_mod_to_equations. lia.
Qed.

(** A day is the first day of its month plus its day of the month. *)
Lemma civil_day_from_month_start (z : Z) :
  z = month_first_day (month_index (civil_from_days z))
      + (day (civil_from_days z) - 1).
Proof.
  pose proof (days_from_civil_from_days z) as Hround.
  rewrite days_from_civil_day in Hround.
  destruct (month_index_split z) as [Hy Hm].
  unfold month_first_day. rewrite Hy, Hm. symmetry. exact Hround.
Qed.

(** The month of a day, by its first days: a day has month index [mi] exactly
    when it lies from the first day of [mi] up to the day before the first
    day of [mi + 1]. *)
Lemma month_index_interval (z mi : Z) :
  month_index (civil_from_days z) = mi <->
  month_first_day mi <= z < month_first_day (mi + 1).
Proof.
  pose proof (civil_day_from_month_start z) as Hlo.
  pose proof (civil_day_positive z) as Hpos.
  pose proof (civil_day_before_next_month z) as Hhi.
  set (mz := month_index (civil_from_days z)) in *.
  set (d := day (civil_from_days z)) in *. clearbody mz d.
  split.
  - intros <-. lia.
  - intros [H1 H2].
    destruct (Z.lt_trichotomy mz mi) as [Hlt | [Heq | Hgt]]; [|exact Heq|].
    + pose proof (month_first_day_le (mz + 1) mi ltac:(lia)). lia.
    + pose proof (month_first_day_le (mi + 1) mz ltac:(lia)). lia.
Qed.

(** ** The order of dates *)

Ltac date_leb_prop :=
  unfold date_leb;
  repeat (rewrite orb_true_iff || rewrite andb_true_iff);
  rewrite ?Z.ltb_lt, ?Z.eqb_eq, ?Z.leb_le.

Lemma date_leb_spec (a b : date) :
  date_leb a b = true <->
  year a < year b
  \/ (year a = year b
      /\ (month a < month b \/ (month a = month b /\ day a <= day b))).
Proof. date_leb_prop. reflexivity. Qed.

Lemma date_leb_trans (a b c : date) :
  date_leb a b = true -> date_leb b c = true -> date_leb a c = true.
Proof. rewrite !date_leb_spec. lia. Qed.

Lemma date_leb_antisym (a b : date) :
  date_leb a b = true -> date_leb b a = true -> a = b.
Proof.
  rewrite !date_leb_spec. destruct a as [ya ma da], b as [yb mb db].
  cbn [year month day]. intros H1 H2.
  assert (ya = yb /\ ma = mb /\ da = db) as (-> & -> & ->) by lia.
  reflexivity.
Qed.

Lemma civil_from_days_inj (z1 z2 : Z) :
  civil_from_days z1 = civil_from_days z2 -> z1 = z2.
Proof.
  intros H. rewrite <- (days_from_civil_from_days z1),
    <- (days_from_civil_from_days z2), H. reflexivity.
Qed.

(** Later days have later dates. *)
Lemma civil_from_days_mono (z1 z2 : Z) :
  z1 <= z2 -> date_leb (civil_from_days z1) (civil_from_days z2) = true.
Proof.
  intros Hle. apply date_leb_spec.
  pose proof (civil_day_from_month_start z1) as H1.
  pose proof (civil_day_from_month_start z2) as H2.
  pose proof (civil_day_positive z1) as P1.
  pose proof (civil_day_before_next_month z2) as U2.
  pose proof (civil_month_range z1) as R1.
  pose proof (civil_month_range z2) as R2.
  assert (I1 : month_index (civil_from_days z1)
               = 12 * year (civil_from_days z1)
                 + (month (civil_from_days z1) - 1)) by reflexivity.
  assert (I2 : month_index (civil_from_days z2)
               = 12 * year (civil_from_days z2)
                 + (month (civil_from_days z2) - 1)) by reflexivity.
  set (m1 := month_index (civil_from_days z1)) in *.
  set (m2 := month_index (civil_from_days z2)) in *.
  destruct (civil_from_days z1) as [y1 mo1 d1].
  destruct (civil_from_days z2) as [y2 mo2 d2].
  cbn [year month day] in *. clearbody m1 m2.
  destruct (Z.lt_trichotomy m1 m2) as [Hlt | [Heq | Hgt]].
  - lia.
  - rewrite <- Heq in H2. lia.
  - pose proof (month_first_day_le (m2 + 1) m1 ltac:(lia)). lia.
Qed.

Lemma civil_from_days_reflect (z1 z2 : Z) :
  date_leb (civil_from_days z1) (civil_from_days z2) = true -> z1 <= z2.
Proof.
  intros H. destruct (Z.le_gt_cases z1 z2) as [Hle | Hgt]; [exact Hle|].
  pose proof (civil_from_days_mono z2 z1 ltac:(lia)) as H'.
  pose proof (civil_from_days_inj _ _ (date_leb_antisym _ _ H H')). lia.
Qed.

Lemma days_of_ms_mono (t1 t2 : Z) : t1 <= t2 -> days_of_ms t1 <= days_of_ms t2.
Proof. intros H. unfold days_of_ms, MS_PER_DAY. apply Z.div_le_mono; lia. Qed.

Lemma days_of_ms_interval (t d : Z) :
  days_of_ms t = d <-> d * MS_PER_DAY <= t < d * MS_PER_DAY + MS_PER_DAY.
Proof.
  unfold days_of_ms, MS_PER_DAY. split.
  - intros <-. Z.div_mod_to_equations. lia.
  - intros H. Z.div_mod_to_equations. lia.
Qed.

Lemma dt_date_mono (t1 t2 : Z) :
  t1 <= t2 -> date_leb (dt_date t1) (dt_date t2) = true.
Proof.
  intros H. unfold dt_date. now apply civil_from_days_mono, days_of_ms_mono.
Qed.

(** * Further properties of the script *)

(** ** The date filter (lines 40-49 and 73-77) *)

Lemma filter_step_rows (df : DataFrame) (start_date end_date : date) :
  rows (filter_step df start_date end_date)
  = filter (date_in_range start_date end_date) (rows df).
Proof.
  unfold filter_step, date_mask. cbn [getitem_mask rows].
  apply select_map_filter.
Qed.

Lemma filter_all {A : Type} (f : A -> bool) (l : list A) :
  (forall x, In x l -> f x = true) -> filter f l = l.
Proof.
  induction l as [|x l IH]; intros H; [reflexivity|].
  cbn [filter]. rewrite (H x (or_introl eq_refl)).
  f_equal. apply IH. intros y Hy. apply H. now right.
Qed.

Lemma filter_none {A : Type} (f : A -> bool) (l : list A) :
  (forall x, In x l -> f x = false) -> filter f l = [].
Proof.
  induction l as [|x l IH]; intros H; [reflexivity|].
  cbn [filter]. rewrite (H x (or_introl eq_refl)).
  apply IH. intros y Hy. apply H. now right.
Qed.

Lemma resample_mean_nil (rule : Rule) : resample_mean rule [] = [].
Proof. reflexivity. Qed.

Lemma filter_step_In_interval (df : DataFrame) (a b : Z) (r : Row) :
  In r (rows (filter_step df (civil_from_days a) (civil_from_days b))) <->
  In r (rows df)
  /\ a * MS_PER_DAY <= start_timestamp r < (b + 1) * MS_PER_DAY.
Proof.
  rewrite filter_step_rows, filter_In. unfold date_in_range, dt_date.
  rewrite andb_true_iff.
  set (t := start_timestamp r).
  assert (Hlo : date_leb (civil_from_days a) (civil_from_days (days_of_ms t))
                = true <-> a * MS_PER_DAY <= t).
  { split.
    - intros H. apply civil_from_days_reflect in H. revert H.
      unfold days_of_ms, MS_PER_DAY. intros H. Z.div_mod_to_equations. lia.
    - intros H. apply civil_from_days_mono. revert H.
      unfold days_of_ms, MS_PER_DAY. intros H. Z.div_mod_to_equations. lia. }
  assert (Hhi : date_leb (civil_from_days (days_of_ms t)) (civil_from_days b)
                = true <-> t < (b + 1) * MS_PER_DAY).
  { split.
    - intros H. apply civil_from_days_reflect in H. revert H.
      unfold days_of_ms, MS_PER_DAY. intros H. Z.div_mod_to_equations. lia.
    - intros H. apply civil_from_days_mono. revert H.
      unfold days_of_ms, MS_PER_DAY. intros H. Z.div_mod_to_equations. lia. }
  rewrite Hlo, Hhi. reflexivity.
Qed.

(** X3.  A date range is a half-open interval of timestamps: with the dates
    of the day numbers [a] and [b] as range, the filter retains exactly the
    rows that start from midnight of day [a] up to, and not at, midnight of
    day [b + 1]. *)
Theorem filter_is_timestamp_interval (df : DataFrame) (a b : Z) (r : Row) :
  In r (rows (filter_step df (civil_from_days a) (civil_from_days b))) <->
  In r (rows df)
  /\ a * MS_PER_DAY <= start_timestamp r < (b + 1) * MS_PER_DAY.
Proof. apply filter_step_In_interval. Qed.

(** X2.  On a frame with at least one row the default value of the date
    widget, [min_date] to [max_date], is a valid range and retains every row:
    the first view of the dashboard shows the whole dataset. *)
Theorem default_range_keeps_all (df : DataFrame) :
  rows df <> [] ->
  exists lo hi,
    min_date df = Some lo /\ max_date df = Some hi
    /\ date_leb lo hi = true
    /\ rows (filter_step df lo hi) = rows df.
Proof.
  intros Hne. unfold min_date, max_date.
  destruct (rows df) as [|r0 rs] eqn:E; [now elim Hne|].
  cbn [map Timestamp_min Timestamp_max option_map].
  set (ts := map start_timestamp rs).
  set (t0 := start_timestamp r0).
  pose proof (fold_min_le ts t0) as [Hmin0 Hmin].
  pose proof (fold_max_ge ts t0) as [Hmax0 Hmax].
  exists (dt_date (fold_left Z.min ts t0)), (dt_date (fold_left Z.max ts t0)).
  split; [reflexivity|]. split; [reflexivity|]. split.
  - apply dt_date_mono. lia.
  - rewrite filter_step_rows, E. apply filter_all. intros r Hr.
    unfold date_in_range.
    assert (Hb : fold_left Z.min ts t0 <= start_timestamp r
                 <= fold_left Z.max ts t0).
    { destruct Hr as [<- | Hr]; [fold t0; lia|].
      assert (Hin : In (start_timestamp r) ts) by (now apply in_map).
      split; [apply Hmin | apply Hmax]; exact Hin. }
    rewrite !dt_date_mono by lia. reflexivity.
Qed.

(** On the two records of 2024-01-01. *)
Lemma default_range_keeps_all_witness :
  rows two_df <> []
  /\ exists lo hi,
       min_date two_df = Some lo /\ max_date two_df = Some hi
       /\ date_leb lo hi = true
       /\ rows (filter_step two_df lo hi) = rows two_df.
Proof.
  assert (Hne : rows two_df <> []) by (vm_compute; discriminate).
  split; [exact Hne|]. exact (default_range_keeps_all two_df Hne).
Defined.

(** X4.  An inverted range ([start_date] after [end_date]) retains no row:
    the series is empty in every view and the three statistics are NaN. *)
Theorem inverted_range_is_empty (df : DataFrame) (start_date end_date : date)
    (agg_mode : AggMode) :
  date_leb start_date end_date = false ->
  rows (filter_step df start_date end_date) = []
  /\ price_column (filter_and_aggregate df start_date end_date agg_mode) = []
  /\ summarize (filter_and_aggregate df start_date end_date agg_mode)
     = mkStats NaN NaN NaN.
Proof.
  intros Hinv.
  assert (E : rows (filter_step df start_date end_date) = []).
  { rewrite filter_step_rows. apply filter_none. intros r _.
    unfold date_in_range.
    destruct (date_leb start_date (dt_date (start_timestamp r))) eqn:H1;
      [|reflexivity].
    destruct (date_leb (dt_date (start_timestamp r)) end_date) eqn:H2;
      [|reflexivity].
    rewrite (date_leb_trans _ _ _ H1 H2) in Hinv. discriminate. }
  assert (P : price_column
                (filter_and_aggregate df start_date end_date agg_mode) = []).
  { unfold filter_and_aggregate.
    destruct agg_mode; cbn [aggregate_step price_column]; rewrite E;
      reflexivity. }
  split; [exact E|]. split; [exact P|].
  unfold summarize, Series_mean, Series_min, Series_max. rewrite P.
  reflexivity.
Qed.

(** On the range 2024-01-03..2024-01-01. *)
Lemma inverted_range_is_empty_witness :
  date_leb jan3 jan1 = false
  /\ summarize (filter_and_aggregate gap_df jan3 jan1 Taeglich)
     = mkStats NaN NaN NaN.
Proof.
  split; [reflexivity|].
  exact (proj2 (proj2 (inverted_range_is_empty gap_df jan3 jan1 Taeglich
                         eq_refl))).
Defined.

(** ** Narrowing the range, and the tariff lines (lines 123-147) *)

Lemma filter_filter_impl {A : Type} (p q : A -> bool) (l : list A) :
  (forall x, p x = true -> q x = true) ->
  filter p (filter q l) = filter p l.
Proof.
  intros H. induction l as [|x l IH]; [reflexivity|].
  cbn [filter]. destruct (q x) eqn:Q.
  - cbn [filter]. now rewrite IH.
  - rewrite IH. destruct (p x) eqn:P; [|reflexivity].
    rewrite (H x P) in Q. discriminate.
Qed.

(** X5.  Narrowing the date range never adds a record: every record retained
    for a range is retained for any wider range, and filtering the result of
    the wider range with the narrower one gives the result of the narrower
    range. *)
Theorem filter_range_monotone (df : DataFrame) (s e s' e' : date) :
  date_leb s' s = true -> date_leb e e' = true ->
  (forall r, In r (rows (filter_step df s e)) ->
             In r (rows (filter_step df s' e')))
  /\ rows (filter_step (filter_step df s' e') s e) = rows (filter_step df s e).
Proof.
  intros Hs He.
  assert (Himp : forall r, date_in_range s e r = true ->
                           date_in_range s' e' r = true).
  { intros r. unfold date_in_range. rewrite !andb_true_iff. intros [H1 H2].
    split; eapply date_leb_trans; eauto. }
  split.
  - intros r. rewrite !filter_step_rows, !filter_In. intros [Hin Hr].
    split; [exact Hin | now apply Himp].
  - rewrite !filter_step_rows. now apply filter_filter_impl.
Qed.

(** On the ranges 2024-01-01..2024-01-01 and 2024-01-01..2024-01-03. *)
Lemma filter_range_monotone_witness :
  date_leb jan1 jan1 = true /\ date_leb jan1 jan3 = true
  /\ rows (filter_step (filter_step gap_df jan1 jan3) jan1 jan1)
     = rows (filter_step gap_df jan1 jan1).
Proof.
  split; [reflexivity|]. split; [reflexivity|].
  exact (proj2 (filter_range_monotone gap_df jan1 jan1 jan1 jan3
                  eq_refl eq_refl)).
Defined.

(** X13.  The tariff lines span the plotted series: their two x values are
    timestamps of the series and every timestamp of the series lies between
    them; on an empty series both are NaT. *)
Theorem tariff_line_span (filtered_df : Frame) :
  match tariff_line_x filtered_df with
  | (Some a, Some b) =>
      In a (time_column filtered_df) /\ In b (time_column filtered_df)
      /\ forall t, In t (time_column filtered_df) -> a <= t <= b
  | (None, None) => time_column filtered_df = []
  | _ => False
  end.
Proof.
  unfold tariff_line_x. destruct (time_column filtered_df) as [|t0 ts];
    [reflexivity|].
  cbn [Timestamp_min Timestamp_max].
  pose proof (fold_min_le ts t0) as [Hmin0 Hmin].
  pose proof (fold_max_ge ts t0) as [Hmax0 Hmax].
  split; [apply fold_min_In|]. split; [apply fold_max_In|].
  intros t [<- | Ht]; [lia|]. split; [now apply Hmin | now apply Hmax].
Qed.

(** On the records of 2024-01-01 and 2024-01-03, hourly view. *)
Lemma tariff_line_span_witness :
  In 1704240000000
     (time_column (filter_and_aggregate gap_df jan1 jan3 Stuendlich))
  /\ 1704067200000 <= 1704240000000 <= 1704240000000.
Proof.
  assert (Hin : In 1704240000000
                   (time_column
                      (filter_and_aggregate gap_df jan1 jan3 Stuendlich)))
    by (vm_compute; tauto).
  split; [exact Hin|].
  pose proof (tariff_line_span
                (filter_and_aggregate gap_df jan1 jan3 Stuendlich)) as H.
  change (tariff_line_x (filter_and_aggregate gap_df jan1 jan3 Stuendlich))
    with (Some 1704067200000, Some 1704240000000) in H.
  cbv beta iota in H. exact (proj2 (proj2 H) _ Hin).
Defined.

(** ** The resampled views (lines 79-86) *)

Lemma label_of_lt (rule : Rule) (a b : Z) :
  a < b -> label_of rule a < label_of rule b.
Proof.
  intros H. destruct rule; cbn [label_of]; unfold MS_PER_DAY.
  - lia.
  - pose proof (month_last_day_lt a b H). lia.
Qed.

Lemma Zrange_sorted (lo hi : Z) : StronglySorted Z.lt (Zrange lo hi).
Proof.
  unfold Zrange. generalize (Z.to_nat (hi - lo + 1)) as n. generalize 0%nat.
  intros s n. revert s.
  induction n as [|n IH]; intros s; cbn [seq map]; constructor.
  - apply IH.
  - apply Forall_forall. intros x Hx. apply in_map_iff in Hx.
    destruct Hx as [i [<- Hi]]. apply in_seq in Hi. lia.
Qed.

Lemma StronglySorted_map_lt (f : Z -> Z) (l : list Z) :
  (forall a b, a < b -> f a < f b) ->
  StronglySorted Z.lt l -> StronglySorted Z.lt (map f l).
Proof.
  intros Hf Hs. induction Hs as [|a l Hs IH Hall]; cbn [map]; constructor.
  - exact IH.
  - apply Forall_forall. intros y Hy. apply in_map_iff in Hy.
    destruct Hy as [x [<- Hx]]. apply Hf.
    rewrite Forall_forall in Hall. now apply Hall.
Qed.

Lemma StronglySorted_lt_NoDup (l : list Z) :
  StronglySorted Z.lt l -> NoDup l.
Proof.
  intros Hs. induction Hs as [|a l Hs IH Hall]; constructor; [|exact IH].
  intros Hin. rewrite Forall_forall in Hall. specialize (Hall a Hin). lia.
Qed.

(** The resampled frame, bin by bin. *)
Lemma resample_mean_bins (rule : Rule) (rs : list Row) :
  exists lo hi,
    resample_mean rule rs
    = map (fun b =>
             mkAgg (label_of rule b)
                   (Series_mean (map price_ct_kwh (bin_rows rule b rs))))
          (Zrange lo hi)
    /\ forall r, In r rs -> lo <= period_of rule (start_timestamp r) <= hi.
Proof.
  unfold resample_mean.
  set (per := fun r : Row => period_of rule (start_timestamp r)).
  destruct (map per rs) as [|p ps] eqn:E.
  - apply map_eq_nil in E. subst rs. exists 0, (-1).
    split; [reflexivity | intros r []].
  - cbv zeta. exists (fold_left Z.min ps p), (fold_left Z.max ps p).
    split; [reflexivity|]. intros r Hr.
    pose proof (fold_min_le ps p) as [Hlo1 Hlo2].
    pose proof (fold_max_ge ps p) as [Hhi1 Hhi2].
    assert (Hp : In (per r) (p :: ps)) by (rewrite <- E; now apply in_map).
    fold (per r). destruct Hp as [<- | Hp]; [lia|].
    split; [apply Hlo2 | apply Hhi2]; exact Hp.
Qed.

Lemma list_sum_cons (x : nat) (l : list nat) :
  list_sum (x :: l) = (x + list_sum l)%nat.
Proof. reflexivity. Qed.

Lemma list_sum_map_add {A : Type} (g h : A -> nat) (l : list A) :
  list_sum (map (fun x => (g x + h x)%nat) l)
  = (list_sum (map g l) + list_sum (map h l))%nat.
Proof.
  induction l as [|x l IH]; [reflexivity|].
  cbn [map]. rewrite !list_sum_cons, IH. lia.
Qed.

Lemma indicator_sum (x : Z) (bins : list Z) :
  NoDup bins -> In x bins ->
  list_sum (map (fun b => if x =? b then 1%nat else 0%nat) bins) = 1%nat.
Proof.
  intros Hnd. induction Hnd as [|b bins Hnot Hnd IH]; intros Hin; [elim Hin|].
  cbn [map]. rewrite list_sum_cons. destruct (Z.eqb_spec x b) as [-> | Hne].
  - assert (Hz : list_sum (map (fun b0 => if b =? b0 then 1%nat else 0%nat)
                               bins) = 0%nat).
    { clear IH Hin Hnd. induction bins as [|c bins IH]; [reflexivity|].
      cbn [map]. rewrite list_sum_cons. destruct (Z.eqb_spec b c) as [-> | _].
      - elim Hnot. now left.
      - apply IH. intros H. apply Hnot. now right. }
    rewrite Hz. reflexivity.
  - destruct Hin as [-> | Hin]; [now elim Hne|]. now rewrite IH.
Qed.

Lemma bin_count_sum (per : Row -> Z) (bins : list Z) (rs : list Row) :
  NoDup bins -> (forall r, In r rs -> In (per r) bins) ->
  list_sum (map (fun b => List.length (filter (fun r => per r =? b) rs)) bins)
  = List.length rs.
Proof.
  intros Hnd. induction rs as [|r rs IH]; intros Hall.
  - clear Hnd Hall. induction bins as [|b bins IHb]; [reflexivity|].
    cbn [map]. rewrite list_sum_cons. exact IHb.
  - transitivity
      (list_sum
         (map (fun b =>
                 ((if (per r =? b)%Z then 1 else 0)
                  + List.length (filter (fun r0 => (per r0 =? b)%Z) rs))%nat)
              bins)).
    { f_equal. apply map_ext. intros b. cbn [filter].
      destruct (per r =? b); reflexivity. }
    rewrite list_sum_map_add, indicator_sum, IH.
    + reflexivity.
    + intros r' Hr'. apply Hall. now right.
    + exact Hnd.
    + apply Hall. now left.
Qed.

(** X6.  Bucket completeness.  In the daily and the monthly view the output
    is one row per bin of a list of distinct bins; the value of a row is the
    mean price of the retained records of its bin, and the record counts of
    the bins add up to the number of retained records: no retained record is
    dropped or counted twice. *)
Theorem resample_partitions_records (rule : Rule) (df : DataFrame)
    (start_date end_date : date) :
  exists bins,
    filter_and_aggregate df start_date end_date (mode_of_rule rule)
    = Aggregated
        (map (fun b =>
                mkAgg (label_of rule b)
                      (Series_mean
                         (map price_ct_kwh
                              (bin_rows rule b
                                 (rows (filter_step df start_date end_date))))))
             bins)
    /\ NoDup bins
    /\ list_sum
         (map (fun b =>
                 List.length
                   (bin_rows rule b (rows (filter_step df start_date end_date))))
              bins)
       = List.length (rows (filter_step df start_date end_date)).
Proof.
  set (F := rows (filter_step df start_date end_date)).
  destruct (resample_mean_bins rule F) as [lo [hi [E Hall]]].
  exists (Zrange lo hi).
  assert (Hnd : NoDup (Zrange lo hi))
    by apply StronglySorted_lt_NoDup, Zrange_sorted.
  split; [|split; [exact Hnd|]].
  - unfold filter_and_aggregate.
    destruct rule; cbn [mode_of_rule aggregate_step]; fold F; now rewrite E.
  - unfold bin_rows.
    apply (bin_count_sum (fun r => period_of rule (start_timestamp r))).
    + exact Hnd.
    + intros r Hr. apply Zrange_In. now apply Hall.
Qed.

(** X7.  In the daily and the monthly view the keys of the output ascend
    strictly; in the daily view they are consecutive midnights, one day
    apart, without a gap. *)
Theorem resample_keys_ascending (rule : Rule) (df : DataFrame)
    (start_date end_date : date) :
  exists out,
    filter_and_aggregate df start_date end_date (mode_of_rule rule)
    = Aggregated out
    /\ StronglySorted Z.lt (map agg_start_timestamp out)
    /\ (rule = D ->
        exists d0,
          map agg_start_timestamp out
          = map (fun i => (d0 + Z.of_nat i) * MS_PER_DAY)
                (seq 0 (List.length out))).
Proof.
  set (F := rows (filter_step df start_date end_date)).
  destruct (resample_mean_bins rule F) as [lo [hi [E _]]].
  exists (resample_mean rule F).
  split; [destruct rule; reflexivity|].
  assert (K : map agg_start_timestamp (resample_mean rule F)
              = map (label_of rule) (Zrange lo hi)).
  { rewrite E, map_map. reflexivity. }
  split.
  - rewrite K. apply StronglySorted_map_lt; [apply label_of_lt|].
    apply Zrange_sorted.
  - intros ->. exists lo. rewrite K.
    assert (L : List.length (resample_mean D F) = Z.to_nat (hi - lo + 1)).
    { rewrite E, length_map. unfold Zrange.
      now rewrite length_map, length_seq. }
    rewrite L. unfold Zrange. rewrite map_map. reflexivity.
Qed.

(** On the records of 2024-01-01 and 2024-01-03: three keys, from day
    19723 on. *)
Lemma resample_keys_ascending_witness :
  D = D
  /\ exists out,
       filter_and_aggregate gap_df jan1 jan3 (mode_of_rule D) = Aggregated out
       /\ exists d0,
            map agg_start_timestamp out
            = map (fun i => (d0 + Z.of_nat i) * MS_PER_DAY)
                  (seq 0 (List.length out)).
Proof.
  split; [reflexivity|].
  destruct (resample_keys_ascending D gap_df jan1 jan3) as [out [E [_ H]]].
  exists out. split; [exact E|]. exact (H eq_refl).
Defined.

Lemma bin_rows_window_D (b : Z) (rs : list Row) :
  bin_rows D b rs
  = filter (in_window (b * MS_PER_DAY) (b * MS_PER_DAY + MS_PER_DAY)) rs.
Proof.
  unfold bin_rows. apply filter_ext. intros r. unfold in_window.
  cbn [period_of]. apply eq_true_iff_eq.
  rewrite andb_true_iff, Z.eqb_eq, Z.leb_le, Z.ltb_lt.
  apply days_of_ms_interval.
Qed.

Lemma bin_rows_window_M (b : Z) (rs : list Row) :
  bin_rows M b rs
  = filter (in_window (month_first_day b * MS_PER_DAY)
                      (month_first_day (b + 1) * MS_PER_DAY)) rs.
Proof.
  unfold bin_rows. apply filter_ext. intros r. unfold in_window.
  cbn [period_of]. unfold dt_date. apply eq_true_iff_eq.
  rewrite andb_true_iff, Z.eqb_eq, Z.leb_le, Z.ltb_lt, month_index_interval.
  set (t := start_timestamp r).
  set (a := month_first_day b). set (c := month_first_day (b + 1)).
  clearbody a c t. unfold days_of_ms, MS_PER_DAY.
  split; intros H; Z.div_mod_to_equations; lia.
Qed.

(** X8.  In the daily view the key of a row is a midnight and the value of
    the row is the mean price of the retained records that start within the
    24 hours from the key on. *)
Theorem daily_row_is_day_mean (df : DataFrame) (start_date end_date : date) :
  exists out,
    filter_and_aggregate df start_date end_date Taeglich = Aggregated out
    /\ forall row, In row out ->
         agg_start_timestamp row mod MS_PER_DAY = 0
         /\ agg_price_ct_kwh row
            = Series_mean
                (map price_ct_kwh
                     (filter (in_window (agg_start_timestamp row)
                                        (agg_start_timestamp row + MS_PER_DAY))
                             (rows (filter_step df start_date end_date)))).
Proof.
  set (F := rows (filter_step df start_date end_date)).
  exists (resample_mean D F). split; [reflexivity|].
  intros row Hin. apply resample_mean_In in Hin.
  destruct Hin as [b [_ ->]]. cbn [agg_start_timestamp agg_price_ct_kwh label_of].
  split; [apply Z_mod_mult|]. now rewrite bin_rows_window_D.
Qed.

(** On the two records of 2024-01-01. *)
Lemma daily_row_is_day_mean_witness :
  exists out,
    filter_and_aggregate two_df jan1 jan1 Taeglich = Aggregated out
    /\ In (mkAgg 1704067200000 (Some (30 # 1)%Q)) out
    /\ agg_start_timestamp (mkAgg 1704067200000 (Some (30 # 1)%Q))
       mod MS_PER_DAY = 0.
Proof.
  destruct (daily_row_is_day_mean two_df jan1 jan1) as [out [E H]].
  exists out. split; [exact E|].
  assert (Hin : In (mkAgg 1704067200000 (Some (30 # 1)%Q)) out).
  { assert (E' : Aggregated out
                 = Aggregated [mkAgg 1704067200000 (Some (30 # 1)%Q)])
      by (rewrite <- E; vm_compute; reflexivity).
    injection E' as ->. now left. }
  split; [exact Hin|]. exact (proj1 (H _ Hin)).
Defined.

(** X9.  In the monthly view the value of a row is the mean price of the
    retained records that start from midnight of the first day of the month
    of the key up to the end of the day of the key. *)
Theorem monthly_row_is_month_mean (df : DataFrame)
    (start_date end_date : date) :
  exists out,
    filter_and_aggregate df start_date end_date Monatlich = Aggregated out
    /\ forall row, In row out ->
         agg_price_ct_kwh row
         = Series_mean
             (map price_ct_kwh
                  (filter
                     (in_window
                        (days_from_civil
                           (year (dt_date (agg_start_timestamp row)))
                           (month (dt_date (agg_start_timestamp row))) 1
                         * MS_PER_DAY)
                        (agg_start_timestamp row + MS_PER_DAY))
                     (rows (filter_step df start_date end_date)))).
Proof.
  set (F := rows (filter_step df start_date end_date)).
  exists (resample_mean M F). split; [reflexivity|].
  intros row Hin. apply resample_mean_In in Hin.
  destruct Hin as [b [_ ->]]. cbn [agg_start_timestamp agg_price_ct_kwh label_of].
  unfold dt_date. rewrite days_of_ms_midnight, civil_month_last_day.
  cbn [year month]. fold (month_first_day b).
  replace (month_last_day b * MS_PER_DAY + MS_PER_DAY)
    with (month_first_day (b + 1) * MS_PER_DAY)
    by (unfold month_last_day; ring).
  now rewrite bin_rows_window_M.
Qed.

(** On the two records of 2024-01-01. *)
Lemma monthly_row_is_month_mean_witness :
  exists out,
    filter_and_aggregate two_df jan1 jan1 Monatlich = Aggregated out
    /\ In (mkAgg 1706659200000 (Some (30 # 1)%Q)) out
    /\ Some (30 # 1)%Q
       = Series_mean
           (map price_ct_kwh
                (filter (in_window 1704067200000 (1706659200000 + MS_PER_DAY))
                        (rows (filter_step two_df jan1 jan1)))).
Proof.
  destruct (monthly_row_is_month_mean two_df jan1 jan1) as [out [E H]].
  exists out. split; [exact E|].
  assert (Hin : In (mkAgg 1706659200000 (Some (30 # 1)%Q)) out).
  { assert (E' : Aggregated out
                 = Aggregated [mkAgg 1706659200000 (Some (30 # 1)%Q)])
      by (rewrite <- E; vm_compute; reflexivity).
    injection E' as ->. now left. }
  split; [exact Hin|]. exact (H _ Hin).
Defined.

(** ** Loading (lines 20-27) *)



(** ** A selection within one bin *)










(** ** The statistics (lines 92-94) *)


Lemma Series_mean_nan (s : list float) :
  Series_mean s = NaN <-> dropna s = [].
Proof.
  unfold Series_mean. destruct (dropna s); split; intros H;
    try reflexivity; discriminate.
Qed.













(** ** Aggregated against unaggregated statistics *)






(** ** The pattern tables (lines 165-171) *)

Section SortedUnique.

Context {K : Type} (eqb leb : K -> K -> bool).
Hypothesis eqb_eq : forall a b, eqb a b = true <-> a = b.

Lemma insert_key_In_iff (k x : K) (l : list K) :
  In x (insert_key eqb leb k l) <-> x = k \/ In x l.
Proof.
  split; [apply insert_key_In|].
  induction l as [|y l IH]; cbn [insert_key].
  - intros [-> | []]. now left.
  - destruct (eqb k y) eqn:E.
    + apply eqb_eq in E. subst y. intros [-> | H]; [now left | exact H].
    + destruct (leb k y).
      * intros [-> | H]; [now left | now right].
      * intros [-> | [-> | H]].
        -- right. apply IH. now left.
        -- now left.
        -- right. apply IH. now right.
Qed.

Lemma sorted_unique_In_iff (keys : list K) (x : K) :
  In x (sorted_unique eqb leb keys) <-> In x keys.
Proof.
  split; [apply sorted_unique_In|]. unfold sorted_unique.
  assert (H : forall acc,
             In x acc \/ In x keys ->
             In x (fold_left (fun acc k => insert_key eqb leb k acc) keys acc)).
  { induction keys as [|k keys IH]; intros acc; cbn [fold_left].
    - intros [H | []]. exact H.
    - intros [H | [-> | H]]; apply IH.
      + left. apply insert_key_In_iff. now right.
      + left. apply insert_key_In_iff. now left.
      + now right. }
  intros Hx. apply H. now right.
Qed.

(** Looking a key up in a grouped table. *)
Lemma find_groupby (g : K -> float) (ks : list K) (w : K) :
  find (fun kv => eqb w (fst kv)) (map (fun k => (k, g k)) ks)
  = if existsb (eqb w) ks then Some (w, g w) else None.
Proof.
  induction ks as [|k ks IH]; [reflexivity|].
  cbn [map find existsb fst]. destruct (eqb w k) eqn:E.
  - apply eqb_eq in E. now subst k.
  - cbn [orb]. exact IH.
Qed.

End SortedUnique.

Lemma select_map_map {A B C : Type} (p : B -> bool) (f : A -> B) (g : A -> C)
    (l : list A) :
  select (map p (map f l)) (map g l) = map g (filter (fun x => p (f x)) l).
Proof.
  induction l as [|x l IH]; [reflexivity|].
  cbn [map select filter]. rewrite IH. destruct (p (f x)); reflexivity.
Qed.

Lemma insert_key_sorted (k : Z) (l : list Z) :
  StronglySorted Z.lt l -> StronglySorted Z.lt (insert_key Z.eqb Z.leb k l).
Proof.
  intros Hs. induction Hs as [|y l Hs IH Hall]; cbn [insert_key].
  - constructor; constructor.
  - destruct (Z.eqb_spec k y) as [-> | Hne]; [now constructor|].
    destruct (Z.leb_spec k y) as [Hle | Hgt].
    + constructor; [now constructor|]. constructor; [lia|].
      rewrite Forall_forall in *. intros x Hx. specialize (Hall x Hx). lia.
    + constructor; [exact IH|]. apply Forall_forall. intros x Hx.
      apply (insert_key_In_iff Z.eqb Z.leb Z.eqb_eq) in Hx.
      destruct Hx as [-> | Hx]; [lia|].
      rewrite Forall_forall in Hall. now apply Hall.
Qed.

Lemma sorted_unique_sorted (keys : list Z) :
  StronglySorted Z.lt (sorted_unique Z.eqb Z.leb keys).
Proof.
  unfold sorted_unique.
  assert (H : forall acc, StronglySorted Z.lt acc ->
             StronglySorted Z.lt
               (fold_left (fun acc k => insert_key Z.eqb Z.leb k acc) keys acc)).
  { induction keys as [|k keys IH]; intros acc Hacc; cbn [fold_left];
      [exact Hacc|]. apply IH. now apply insert_key_sorted. }
  apply H. constructor.
Qed.

Lemma sorted_length_bound (l : list Z) :
  StronglySorted Z.lt l ->
  forall lo hi, (forall x, In x l -> lo <= x < hi) -> lo <= hi ->
  Z.of_nat (List.length l) <= hi - lo.
Proof.
  intros Hs. induction Hs as [|y l Hs IH Hall]; intros lo hi Hb Hle.
  - cbn [List.length]. lia.
  - cbn [List.length]. rewrite Nat2Z.inj_succ.
    pose proof (Hb y (or_introl eq_refl)) as Hy.
    rewrite Forall_forall in Hall.
    assert (H1 : Z.of_nat (List.length l) <= hi - (y + 1)).
    { apply IH; [|lia]. intros x Hx. specialize (Hall x Hx).
      specialize (Hb x (or_intror Hx)). lia. }
    lia.
Qed.

Lemma dt_hour_range (t : Z) : 0 <= dt_hour t <= 23.
Proof.
  unfold dt_hour, MS_PER_DAY, MS_PER_HOUR. Z.div_mod_to_equations. lia.
Qed.

Lemma dt_day_name_In (t : Z) : In (dt_day_name t) weekday_names.
Proof.
  unfold dt_day_name. apply nth_In.
  pose proof (Z.mod_pos_bound (days_of_ms t + 3) 7 ltac:(lia)) as H.
  change (List.length weekday_names) with 7%nat. lia.
Qed.

(** X14.  The hour table is always produced.  Its keys are the hours of the
    day on which some record starts, each once and in ascending order, all
    between 0 and 23, so there are at most 24 entries; the value of an hour
    is the mean price of the records that start in that hour, over the
    whole dataset. *)
Theorem hour_pattern_table (df : DataFrame) (date_range : date * date)
    (agg_mode : AggMode) :
  exists t,
    avg_by_hour (script df date_range agg_mode) = Some t
    /\ StronglySorted Z.lt (map fst t)
    /\ (List.length t <= 24)%nat
    /\ (forall h, In h (map fst t) <->
                  exists r, In r (rows df) /\ dt_hour (start_timestamp r) = h)
    /\ forall h v, In (h, v) t ->
         0 <= h <= 23
         /\ v = Series_mean
                  (map price_ct_kwh
                       (filter (fun r => h =? dt_hour (start_timestamp r))
                               (rows df))).
Proof.
  destruct date_range as [start_date end_date].
  unfold script, pattern_step. cbv zeta.
  cbn [setitem_hour setitem_weekday rows hour weekday option_map avg_by_hour].
  set (hours := map (fun r => dt_hour (start_timestamp r)) (rows df)).
  eexists. split; [reflexivity|].
  assert (Hkeys : map fst (groupby_mean Z.eqb Z.leb hours
                             (map price_ct_kwh (rows df)))
                  = sorted_unique Z.eqb Z.leb hours).
  { unfold groupby_mean. rewrite map_map. cbn [fst]. apply map_id. }
  assert (Hmem : forall h, In h (sorted_unique Z.eqb Z.leb hours) <->
                   exists r, In r (rows df) /\ dt_hour (start_timestamp r) = h).
  { intros h. rewrite (sorted_unique_In_iff Z.eqb Z.leb Z.eqb_eq).
    unfold hours. rewrite in_map_iff. split; intros [r [A B]]; exists r; tauto. }
  split; [rewrite Hkeys; apply sorted_unique_sorted|].
  split.
  { assert (L : Z.of_nat (List.length (sorted_unique Z.eqb Z.leb hours))
                <= 24 - 0).
    { apply sorted_length_bound; [apply sorted_unique_sorted | | lia].
      intros x Hx. apply Hmem in Hx. destruct Hx as [r [_ <-]].
      pose proof (dt_hour_range (start_timestamp r)). lia. }
    rewrite <- Hkeys, length_map in L. lia. }
  split; [intros h; rewrite Hkeys; apply Hmem|].
  intros h v Hin. unfold groupby_mean in Hin. apply in_map_iff in Hin.
  destruct Hin as [k [E Hk]]. injection E as <- <-. split.
  - apply Hmem in Hk. destruct Hk as [r [_ <-]]. apply dt_hour_range.
  - unfold hours. now rewrite select_map_map.
Qed.

(** On the two records of 2024-01-01: the entry of hour 1. *)
Lemma hour_pattern_table_witness :
  exists t,
    avg_by_hour (script two_df (jan1, jan1) Taeglich) = Some t
    /\ In (1, Some (20 # 1)%Q) t
    /\ 0 <= 1 <= 23.
Proof.
  destruct (hour_pattern_table two_df (jan1, jan1) Taeglich)
    as (t & Et & _ & _ & _ & Hv).
  exists t. split; [exact Et|].
  assert (Hin : In (1, Some (20 # 1)%Q) t).
  { assert (E' : Some t = Some [(0, Some (40 # 1)%Q); (1, Some (20 # 1)%Q)])
      by (rewrite <- Et; vm_compute; reflexivity).
    injection E' as ->. right. now left. }
  split; [exact Hin|]. exact (proj1 (Hv _ _ Hin)).
Defined.

(** X15.  Every record starts on one of the seven weekdays, and the slot of
    a weekday in the weekday table holds the mean price of the records that
    start on that weekday, over the whole dataset (NaN when there is
    none). *)
Theorem weekday_pattern_values (df : DataFrame) (date_range : date * date)
    (agg_mode : AggMode) :
  (forall r, In r (rows df) ->
             In (dt_day_name (start_timestamp r)) weekday_names)
  /\ exists t,
       avg_by_day (script df date_range agg_mode) = Some t
       /\ forall w,
            In w weekday_names ->
            In (w, Series_mean
                     (map price_ct_kwh
                          (filter
                             (fun r =>
                                String.eqb w (dt_day_name (start_timestamp r)))
                             (rows df))))
               t.
Proof.
  split; [intros r _; apply dt_day_name_In|].
  destruct date_range as [start_date end_date].
  unfold script, pattern_step. cbv zeta.
  cbn [setitem_hour setitem_weekday rows hour weekday option_map avg_by_day].
  set (names := map (fun r => dt_day_name (start_timestamp r)) (rows df)).
  eexists. split; [reflexivity|].
  intros w Hw. unfold reindex. apply in_map_iff. exists w.
  split; [|exact Hw]. f_equal. unfold groupby_mean.
  rewrite (find_groupby String.eqb String.eqb_eq).
  unfold names at 2. rewrite select_map_map.
  destruct (existsb (String.eqb w) (sorted_unique String.eqb String.leb names))
    eqn:Ex; [reflexivity|].
  cbn [snd]. symmetry. apply Series_mean_nan.
  rewrite filter_none; [reflexivity|]. intros r Hr.
  destruct (String.eqb w (dt_day_name (start_timestamp r))) eqn:E;
    [|reflexivity].
  apply String.eqb_eq in E.
  assert (Hin : In w (sorted_unique String.eqb String.leb names)).
  { apply (sorted_unique_In_iff String.eqb String.leb String.eqb_eq).
    unfold names. apply in_map_iff. exists r. split; [now symmetry | exact Hr]. }
  assert (Hex : existsb (String.eqb w)
                        (sorted_unique String.eqb String.leb names) = true).
  { apply existsb_exists. exists w. split; [exact Hin | apply String.eqb_refl]. }
  rewrite Hex in Ex. discriminate.
Qed.

(** On the two records of 2024-01-01, a Monday. *)
Lemma weekday_pattern_values_witness :
  In "Monday"%string weekday_names
  /\ exists t,
       avg_by_day (script two_df (jan1, jan1) Taeglich) = Some t
       /\ In ("Monday"%string,
              Series_mean
                (map price_ct_kwh
                     (filter
                        (fun r =>
                           String.eqb "Monday"
                                      (dt_day_name (start_timestamp r)))
                        (rows two_df))))
             t.
Proof.
  assert (Hw : In "Monday"%string weekday_names) by (vm_compute; tauto).
  split; [exact Hw|].
  destruct (proj2 (weekday_pattern_values two_df (jan1, jan1) Taeglich))
    as [t [Et H]].
  exists t. split; [exact Et | exact (H _ Hw)].
Defined.
